(** * The club sign-in kiosk (sign_in_app.py): a shallow embedding

    The program is a Tk window with one entry field.  A submission is
    validated against a roster read once from a CSV file and is then logged
    in a per-day CSV file that is read, extended by one row and rewritten.

    The embedding follows the source function by function.  The parts of
    pandas, os and Tk the source calls are modelled in the modules [Text],
    [pd] and in the world record below; the methods of [StudentSignInApp]
    keep their names. *)

From Stdlib Require Import ZArith List Ascii String Bool DecimalString DecimalPos.
From stdpp Require Import base strings gmap list.

Local Open Scope string_scope.
Local Open Scope Z_scope.

(** ** Text

    A Python [str] is modelled as a Rocq [string]; a character is a code
    point below 256. *)
Module Text.

Definition code (c : ascii) : nat := nat_of_ascii c.

(** [str.isspace] on the code points below 256: the ASCII blanks and
    separators, NEL and the no-break space. *)
Definition isspace (c : ascii) : bool :=
  let n := code c in
  ((9 <=? n) && (n <=? 13) || (28 <=? n) && (n <=? 32)
   || (n =? 133) || (n =? 160))%nat.

Fixpoint lstrip (s : string) : string :=
  match s with
  | EmptyString => EmptyString
  | String c r => if isspace c then lstrip r else s
  end.

Fixpoint rstrip (s : string) : string :=
  match s with
  | EmptyString => EmptyString
  | String c r =>
      match rstrip r with
      | EmptyString => if isspace c then EmptyString else String c EmptyString
      | r' => String c r'
      end
  end.

(** [str.strip()] *)
Definition strip (s : string) : string := lstrip (rstrip s).

(** Empty or made of whitespace only. *)
Fixpoint blank (s : string) : bool :=
  match s with
  | EmptyString => true
  | String c r => isspace c && blank r
  end.

Definition lower (c : ascii) : ascii :=
  let n := code c in
  if ((65 <=? n) && (n <=? 90))%nat then ascii_of_nat (n + 32) else c.

Fixpoint lowercase (s : string) : string :=
  match s with
  | EmptyString => EmptyString
  | String c r => String (lower c) (lowercase r)
  end.

Definition isdigit (c : ascii) : bool :=
  let n := code c in ((48 <=? n) && (n <=? 57))%nat.

Definition digit (c : ascii) : Z := Z.of_nat (code c - 48).

(** [str(n)] of a Python int *)
Definition of_int (z : Z) : string := NilZero.string_of_int (Z.to_int z).

Definition mem (s : string) (l : list string) : bool :=
  existsb (String.eqb s) l.

End Text.

(** ** pandas

    The calls of the source into pandas, with its defaults and its C parser.
    Where the versions of pandas differ, or a column is of a type the
    embedding does not hold, the call ends in [Unmodelled].  A CSV file is
    modelled after tokenizing, as its grid
    of cell texts: the header line and the data lines.  Quoting and line
    ends are the tokenizer's business and do not appear. *)
Module pd.

Record csv := mk_csv { header : list string; lines : list (list string) }.

(** A scalar held by a DataFrame.  Columns of floats and booleans are not
    tracked: [read_csv] below answers [Unmodelled] for a file that would
    need them. *)
Inductive value :=
| VInt (z : Z)
| VStr (s : string)
| VNaN.

Record DataFrame := mk_df { columns : list string; rows : list (list value) }.

(** The argument of a [KeyError]: the label a lookup missed, or the
    message the roster loader builds from the path and [columns.tolist()]. *)
Inductive key_error_arg :=
| Label (key : string)
| ColumnNotFound (column file_path : string) (available : list string).

(** The exceptions the source meets.  [Unmodelled] is not one of Python's:
    it ends a call whose result in pandas the embedding does not follow (a
    float or boolean column, a renamed label, an overlong line, the text of
    a missing value). *)
Inductive exn :=
| FileNotFoundError
| EmptyDataError
| KeyError (arg : key_error_arg)
| Unmodelled.

Inductive result (A : Type) :=
| Ok (a : A)
| Raise (e : exn).
Arguments Ok {A} a.
Arguments Raise {A} e.

(** *** Reading cells *)

(** The tokenizer's [isspace_ascii]. *)
Definition isspace_ascii (c : ascii) : bool :=
  let n := Text.code c in ((n =? 32) || (9 <=? n) && (n <=? 13))%nat.

Fixpoint skip_spaces (s : string) : string :=
  match s with
  | String c r => if isspace_ascii c then skip_spaces r else s
  | EmptyString => EmptyString
  end.

Fixpoint skip_digits (s : string) : string :=
  match s with
  | String c r => if Text.isdigit c then skip_digits r else s
  | EmptyString => EmptyString
  end.

Definition skip_sign (s : string) : string :=
  match s with
  | String "+" r | String "-" r => r
  | _ => s
  end.

Definition int64_min : Z := - 2 ^ 63.
Definition int64_max : Z := 2 ^ 63 - 1.

(** The digit loop of [str_to_int64]: accumulates the number, stops at the
    first character that is not a digit and gives up on overflow. *)
Fixpoint int_digits (neg : bool) (acc : Z) (s : string) : option (Z * string) :=
  match s with
  | String c r =>
      if Text.isdigit c then
        let acc' := if neg then acc * 10 - Text.digit c
                    else acc * 10 + Text.digit c in
        if (int64_min <=? acc') && (acc' <=? int64_max)
        then int_digits neg acc' r else None
      else Some (acc, s)
  | EmptyString => Some (acc, s)
  end.

(** [str_to_int64] of the C tokenizer: blanks, a sign, at least one digit,
    blanks, and nothing else. *)
Definition str_to_int64 (s : string) : option Z :=
  let p := skip_spaces s in
  let neg := match p with String "-" _ => true | _ => false end in
  let p := skip_sign p in
  match p with
  | String c _ =>
      if Text.isdigit c then
        match int_digits neg 0 p with
        | Some (z, rest) =>
            match skip_spaces rest with
            | EmptyString => Some z
            | _ => None
            end
        | None => None
        end
      else None
  | EmptyString => None
  end.

(** The default NA markers of [read_csv]. *)
Definition na_values : list string :=
  [ ""; "#N/A"; "#N/A N/A"; "#NA"; "-1.#IND"; "-1.#QNAN"; "-NaN"; "-nan";
    "1.#IND"; "1.#QNAN"; "<NA>"; "N/A"; "NA"; "NULL"; "NaN"; "None";
    "n/a"; "nan"; "null" ].

Definition is_na (s : string) : bool := Text.mem s na_values.

(** A superset of the texts the float parser [xstrtod] consumes entirely:
    blanks, sign, digits, a decimal part, an exponent part, blanks. *)
Definition looks_like_double (s : string) : bool :=
  let p := skip_digits (skip_sign (skip_spaces s)) in
  let p := match p with String "." r => skip_digits r | _ => p end in
  let p := match p with
           | String "e" r | String "E" r => skip_digits (skip_sign r)
           | _ => p
           end in
  match skip_spaces p with EmptyString => true | _ => false end.

(** Words the float and boolean converters accept in any capitalisation. *)
Definition special_words : list string :=
  [ "inf"; "infinity"; "nan"; "true"; "false" ].

Definition is_special_word (s : string) : bool :=
  Text.mem (Text.lowercase (skip_sign s)) special_words.

(** What the converters of [read_csv] make of one cell text.  [CellOther]
    collects every text that may convert to a float or a boolean (or to an
    integer outside int64); [CellText] is a text that none of the
    converters accepts. *)
Inductive cell_kind :=
| CellNA
| CellInt (z : Z)
| CellOther
| CellText.

Definition classify (s : string) : cell_kind :=
  if is_na s then CellNA
  else match str_to_int64 s with
       | Some z => CellInt z
       | None =>
           if looks_like_double s || is_special_word s then CellOther
           else CellText
       end.

Inductive dtype := int64 | object.

Definition is_int (k : cell_kind) : bool :=
  match k with CellInt _ => true | _ => false end.
Definition is_text (k : cell_kind) : bool :=
  match k with CellText => true | _ => false end.

(** Type inference for one column: int64 when every cell is an integer,
    object when some cell is a plain text (or the column is empty).  The
    remaining columns are float64 or bool in pandas. *)
Definition infer_dtype (cells : list string) : option dtype :=
  let ks := map classify cells in
  if forallb is_int ks then (if ks is [] then Some object else Some int64)
  else if existsb is_text ks then Some object
  else None.

Definition convert (d : dtype) (s : string) : value :=
  match d with
  | int64 => match str_to_int64 s with Some z => VInt z | None => VNaN end
  | object => if is_na s then VNaN else VStr s
  end.

(** *** [read_csv] and [to_csv] *)

Fixpoint distinct (l : list string) : bool :=
  match l with
  | [] => true
  | x :: r => negb (Text.mem x r) && distinct r
  end.

(** The files the model reads as they are: the labels are the header's
    texts (no empty or repeated name, which pandas would rename), every
    line has a cell (the tokenizer skips blank lines) and none has more
    cells than the header.  A line with fewer cells is completed with
    missing values. *)
Definition regular (f : csv) : bool :=
  distinct (header f) && negb (Text.mem "" (header f))
  && forallb (fun l => (0 <? length l)%nat
                       && (length l <=? length (header f))%nat) (lines f).

(** The texts of column [j]; a line that ends early has missing cells. *)
Definition column_cells (j : nat) (ls : list (list string)) : list string :=
  map (fun l => nth j l "") ls.

Definition infer_dtypes (width : nat) (ls : list (list string))
  : option (list dtype) :=
  mapM (fun j => infer_dtype (column_cells j ls)) (seq 0 width).

(** One data line under the dtypes of the columns. *)
Definition read_line (ds : list dtype) (l : list string) : list value :=
  imap (fun j d => convert d (nth j l "")) ds.

(** [pd.read_csv] on the content of an existing file. *)
Definition parse (f : csv) : result DataFrame :=
  if header f is [] then Raise EmptyDataError
  else if negb (regular f) then Raise Unmodelled
  else match infer_dtypes (length (header f)) (lines f) with
       | Some ds => Ok {| columns := header f;
                          rows := map (read_line ds) (lines f) |}
       | None => Raise Unmodelled
       end.

Definition read_csv (files : gmap string csv) (path : string)
  : result DataFrame :=
  match files !! path with
  | Some f => parse f
  | None => Raise FileNotFoundError
  end.

(** How [to_csv] prints a scalar (na_rep is the empty text). *)
Definition to_text (v : value) : string :=
  match v with
  | VInt z => Text.of_int z
  | VStr s => s
  | VNaN => ""
  end.

(** [df.to_csv(path, index=False)]: the content written. *)
Definition to_csv (df : DataFrame) : csv :=
  {| header := columns df; lines := map (map to_text) (rows df) |}.

(** *** DataFrame operations *)

(** [pd.DataFrame(columns=cols)] *)
Definition empty_frame (cols : list string) : DataFrame :=
  {| columns := cols; rows := [] |}.

Fixpoint positions_from (i : nat) (key : string) (cols : list string)
  : list nat :=
  match cols with
  | [] => []
  | c :: r =>
      if String.eqb key c then i :: positions_from (S i) key r
      else positions_from (S i) key r
  end.

Definition positions := positions_from 0.

(** [df[key]] is a Series when one column carries the label and a
    DataFrame when several do. *)
Inductive selection :=
| Series (vs : list value)
| Frame (df : DataFrame).

Definition cell (j : nat) (r : list value) : value := nth j r VNaN.

Definition getitem (df : DataFrame) (key : string) : result selection :=
  match positions key (columns df) with
  | [] => Raise (KeyError (Label key))
  | [j] => Ok (Series (map (cell j) (rows df)))
  | js => Ok (Frame {| columns := map (fun _ => key) js;
                       rows := map (fun r => map (fun j => cell j r) js)
                                   (rows df) |})
  end.

(** One cell of [series == s] for a Python str [s]: a number or NaN never
    equals a str. *)
Definition eq_str (s : string) (v : value) : bool :=
  match v with
  | VStr t => String.eqb t s
  | VInt _ | VNaN => false
  end.

Fixpoint mask_and (a b : list bool) : list bool :=
  match a, b with
  | x :: a', y :: b' => (x && y) :: mask_and a' b'
  | _, _ => []
  end.

Fixpoint select {A} (mask : list bool) (l : list A) : list A :=
  match mask, l with
  | m :: mask', x :: l' => if m then x :: select mask' l' else select mask' l'
  | _, _ => []
  end.

(** [df[mask]] *)
Definition getitem_mask (df : DataFrame) (mask : list bool) : DataFrame :=
  {| columns := columns df; rows := select mask (rows df) |}.

(** [df.empty]: some axis has length 0. *)
Definition empty (df : DataFrame) : bool :=
  match columns df, rows df with
  | _ :: _, _ :: _ => false
  | _, _ => true
  end.

(** [str(v)], as [astype(str)] applies it.  What becomes of a missing value
    depends on the version of pandas (the text nan before version 3, a
    missing value from then on), so it is not followed. *)
Definition astype_str (v : value) : option string :=
  match v with
  | VInt z => Some (Text.of_int z)
  | VStr s => Some s
  | VNaN => None
  end.

(** A row of a frame with labels [src], laid out under the labels [dst];
    a label the row does not have gives NaN. *)
Definition realign (src dst : list string) (r : list value) : list value :=
  map (fun c => match positions c src with
                | j :: _ => cell j r
                | [] => VNaN
                end) dst.

(** [pd.concat([a, b], ignore_index=True)]: the labels of [a], then those
    only [b] has; the rows of [a], then those of [b]. *)
Definition concat (a b : DataFrame) : DataFrame :=
  let cols := (columns a
               ++ List.filter (fun c => negb (Text.mem c (columns a)))
                              (columns b))%list in
  {| columns := cols;
     rows := (map (realign (columns a) cols) (rows a)
              ++ map (realign (columns b) cols) (rows b))%list |}.

(** [reads_as s v]: the scalar [v] is a reading of the cell text [s]. *)
Inductive reads_as : string -> value -> Prop :=
| reads_int s z : str_to_int64 s = Some z -> reads_as s (VInt z)
| reads_str s : is_na s = false -> reads_as s (VStr s)
| reads_nan s : is_na s = true -> reads_as s VNaN.

End pd.

Import pd.

(** ** The world the program runs in

    The files, the clock, the entry field, the status label and the error
    dialogs shown so far.  [clock] lists the answers of the successive calls
    of [datetime.now()], already formatted as the program formats them;
    [ticks] counts the calls made. *)

Record datetime := mk_datetime {
  date : string;   (* strftime("%Y-%m-%d") *)
  time : string    (* strftime("%H:%M:%S") *)
}.

Inductive message :=
| Plain (text : string)
| StrOf (e : exn).   (* str(e) *)

Record World := mk_world {
  files : gmap string csv;
  clock : nat -> datetime;
  ticks : nat;
  id_entry : string;                (* text of the entry field *)
  id_entry_focus : bool;            (* the entry field holds the keyboard focus *)
  status_label : string * string;   (* text and fg of the status label *)
  dialogs : list (string * message) (* messagebox.showerror calls, oldest first *)
}.

(** *** State and exceptions *)

Definition M (A : Type) : Type := World -> result A * World.

Definition ret {A} (a : A) : M A := fun w => (Ok a, w).

Definition bind {A B} (m : M A) (k : A -> M B) : M B :=
  fun w => match m w with
           | (Ok a, w') => k a w'
           | (Raise e, w') => (Raise e, w')
           end.

Definition raise {A} (e : exn) : M A := fun w => (Raise e, w).

Definition lift {A} (r : result A) : M A := fun w => (r, w).

(** [try: body except ...: handler]; [handler e = None] lets [e] pass. *)
Definition try_except {A} (body : M A) (handler : exn -> option (M A)) : M A :=
  fun w => match body w with
           | (Ok a, w') => (Ok a, w')
           | (Raise e, w') =>
               match handler e with
               | Some h => h w'
               | None => (Raise e, w')
               end
           end.

Declare Scope py_scope.
Delimit Scope py_scope with py.
Notation "x <- c ;; k" := (bind c (fun x => k))
  (at level 100, c at next level, right associativity) : py_scope.
Notation "c ;; k" := (bind c (fun _ => k))
  (at level 100, right associativity) : py_scope.
Local Open Scope py_scope.

(** *** The calls into datetime, os, pandas and Tk *)

Definition set_files (fs : gmap string csv) (w : World) : World :=
  mk_world fs (clock w) (ticks w) (id_entry w) (id_entry_focus w)
           (status_label w) (dialogs w).

(** [datetime.now()] *)
Definition now : M datetime :=
  fun w => (Ok (clock w (ticks w)),
            mk_world (files w) (clock w) (S (ticks w)) (id_entry w)
                     (id_entry_focus w) (status_label w) (dialogs w)).

(** [os.path.join(directory, name)] *)
Definition path_join (directory name : string) : string :=
  directory ++ "/" ++ name.

(** [os.path.exists(path)] *)
Definition path_exists (path : string) : M bool :=
  fun w => (Ok (bool_decide (is_Some (files w !! path))), w).

Definition read_csv (path : string) : M DataFrame :=
  fun w => (pd.read_csv (files w) path, w).

(** [df.to_csv(path, index=False)] *)
Definition to_csv (df : DataFrame) (path : string) : M unit :=
  fun w => (Ok tt, set_files (<[path := pd.to_csv df]> (files w)) w).

Definition id_entry_get : M string := fun w => (Ok (id_entry w), w).

(** [id_entry.delete(0, tk.END)] *)
Definition id_entry_delete : M unit :=
  fun w => (Ok tt, mk_world (files w) (clock w) (ticks w) "" (id_entry_focus w)
                            (status_label w) (dialogs w)).

Definition id_entry_focus_set : M unit :=
  fun w => (Ok tt, mk_world (files w) (clock w) (ticks w) (id_entry w) true
                            (status_label w) (dialogs w)).

Definition status_label_config (text fg : string) : M unit :=
  fun w => (Ok tt, mk_world (files w) (clock w) (ticks w) (id_entry w)
                            (id_entry_focus w) (text, fg) (dialogs w)).

Definition showerror (title : string) (msg : message) : M unit :=
  fun w => (Ok tt, mk_world (files w) (clock w) (ticks w) (id_entry w)
                            (id_entry_focus w) (status_label w)
                            (dialogs w ++ [(title, msg)])).

(** ** StudentSignInApp *)

Record StudentSignInApp := mk_app {
  directory : string;
  valid_users : gset string
}.

Definition schema : list string := ["Student ID"; "Status"; "Date"; "Time"].

(** [set(df['Student ID'].astype(str))]; iterating a DataFrame gives its
    column labels. *)
Definition set_of_str (sel : selection) : result (gset string) :=
  match sel with
  | Series vs =>
      match mapM astype_str vs with
      | Some ids => Ok (list_to_set ids)
      | None => Raise Unmodelled
      end
  | Frame df => Ok (list_to_set (columns df))
  end.

(** Lines 33-48. *)
Definition load_valid_users_from_csv (file_path : string) : M (gset string) :=
  try_except
    (df <- read_csv file_path ;;
     let df := {| columns := map Text.strip (columns df); rows := rows df |} in
     if negb (Text.mem "Student ID" (columns df)) then
       raise (KeyError (ColumnNotFound "Student ID" file_path (columns df)))
     else
       ids <- lift (getitem df "Student ID") ;;
       lift (set_of_str ids))
    (fun e =>
       match e with
       | FileNotFoundError =>
           Some (showerror "Error" (Plain (file_path ++ " file not found!")) ;;
                 ret ∅)
       | KeyError _ => Some (showerror "Error" (StrOf e) ;; ret ∅)
       | _ => None
       end).

(** Lines 66-77. *)
Definition daily_log_generation (self : StudentSignInApp) : M DataFrame :=
  t <- now ;;
  let current_date := date t in
  let file_path := path_join (directory self) (current_date ++ ".csv") in
  present <- path_exists file_path ;;
  (if negb present then to_csv (empty_frame schema) file_path else ret tt) ;;
  read_csv file_path.

(** Lines 79-83.  The comparison of a column with a str and the mask are
    only followed for a Series, one column under each label. *)
Definition student_already_signed_in (df : DataFrame) (student_id : string)
  : result bool :=
  match getitem df "Student ID", getitem df "Status" with
  | Ok (Series ids), Ok (Series statuses) =>
      let signed_in :=
        getitem_mask df (mask_and (map (eq_str student_id) ids)
                                  (map (eq_str "Signed In") statuses)) in
      Ok (negb (empty signed_in))
  | Raise e, _ => Raise e
  | Ok _, Raise e => Raise e
  | Ok _, Ok _ => Raise Unmodelled
  end.

(** Lines 85-102: the time is read first, then the date. *)
Definition log_student_sign_in (df : DataFrame) (file_path student_id : string)
    (status : string) : M unit :=
  t1 <- now ;;
  let current_time := time t1 in
  t2 <- now ;;
  let current_date := date t2 in
  let new_row := {| columns := schema;
                    rows := [[VStr student_id; VStr status;
                              VStr current_date; VStr current_time]] |} in
  let df := concat df new_row in
  to_csv df file_path.

(** Lines 167-198, the handler of the button and of the Return key. *)
Definition sign_in (self : StudentSignInApp) : M unit :=
  text <- id_entry_get ;;
  let login := Text.strip text in
  if String.eqb login "" then
    status_label_config "Please enter a Student ID" "red"
  else if negb (bool_decide (login ∈ valid_users self)) then
    status_label_config "Please enter a valid STUDENT ID" "red" ;;
    id_entry_delete
  else
    daily_log_df <- daily_log_generation self ;;
    t <- now ;;
    let daily_log_file := path_join (directory self) (date t ++ ".csv") in
    signed_in <- lift (student_already_signed_in daily_log_df login) ;;
    (if signed_in then
       log_student_sign_in daily_log_df daily_log_file login "Signed Out" ;;
       status_label_config
         "Thank you. You have been successfully logged out." "green"
     else
       log_student_sign_in daily_log_df daily_log_file login "Signed In" ;;
       status_label_config "Thank you. You have been signed in." "green") ;;
    id_entry_delete ;;
    id_entry_focus_set.

(** The user replaces the text of the entry field and submits.  Tk reports
    an exception of the handler and the main loop goes on. *)
Definition type_text (text : string) (w : World) : World :=
  mk_world (files w) (clock w) (ticks w) text (id_entry_focus w)
           (status_label w) (dialogs w).

Definition submit (self : StudentSignInApp) (text : string) (w : World) : World :=
  snd (sign_in self (type_text text w)).

Definition session (self : StudentSignInApp) (texts : list string) (w : World)
  : World :=
  fold_left (fun w text => submit self text w) texts w.

(** [__init__], without the window, the background image and the widgets. *)
Definition init : M StudentSignInApp :=
  users <- load_valid_users_from_csv "Robotics Club Member Roster CSV.csv" ;;
  ret {| directory := "daily_logs"; valid_users := users |}.

(** ** The scenario of the specification

    Roster {"123"}, no log file for today; every submission reads the clock
    four times. *)
Definition today : string := "2024-03-05".

Definition scenario_clock (n : nat) : datetime :=
  {| date := today;
     time := if (n <? 4)%nat then "18:00:01"
             else if (n <? 8)%nat then "18:07:30" else "18:09:12" |}.

Definition scenario_world : World :=
  {| files := ∅; clock := scenario_clock; ticks := 0; id_entry := "";
     id_entry_focus := false; status_label := ("", "black"); dialogs := [] |}.

Definition scenario_app : StudentSignInApp :=
  {| directory := "daily_logs"; valid_users := {["123"]} |}.

Definition todays_log : string := "daily_logs/2024-03-05.csv".

(** The world after the handler turned a submission down. *)
Definition turned_down (text : string) (clear : bool) (w : World) : World :=
  {| files := files w; clock := clock w; ticks := ticks w;
     id_entry := if clear then "" else id_entry w;
     id_entry_focus := id_entry_focus w;
     status_label := (text, "red"); dialogs := dialogs w |}.

(** The world after [n] more calls of [datetime.now()]. *)
Definition later (n : nat) (w : World) : World :=
  {| files := files w; clock := clock w; ticks := (n + ticks w)%nat;
     id_entry := id_entry w; id_entry_focus := id_entry_focus w;
     status_label := status_label w; dialogs := dialogs w |}.

(** The path of the log the handler opens when the clock answers [t]. *)
Definition log_path (self : StudentSignInApp) (t : datetime) : string :=
  path_join (directory self) (date t ++ ".csv").

(** The world after one more error dialog. *)
Definition shown (msg : message) (w : World) : World :=
  {| files := files w; clock := clock w; ticks := ticks w;
     id_entry := id_entry w; id_entry_focus := id_entry_focus w;
     status_label := status_label w;
     dialogs := dialogs w ++ [("Error", msg)] |}.




(** The roster file [__init__] loads, and a roster of numeric identifiers
    one of which is written with leading zeros. *)
Definition roster_path : string := "Robotics Club Member Roster CSV.csv".

Definition zero_padded_roster : csv :=
  {| header := ["Name"; "Student ID"];
     lines := [["Ada"; "007"]; ["Grace"; "123"]] |}.

(** The status written for a member found signed in or not, and the
    message shown with it. *)
Definition toggled (signed_in : bool) : string :=
  if signed_in then "Signed Out" else "Signed In".

Definition thanks (signed_in : bool) : string :=
  if signed_in then "Thank you. You have been successfully logged out."
  else "Thank you. You have been signed in.".

(** The world after the handler logged [login]: [w1] is the world after
    [daily_log_generation] answered [df], and [signed_in] the answer of the
    check.  Three more clock readings follow: the file name, the time and
    the date. *)
Definition logged (self : StudentSignInApp) (login : string) (df : DataFrame)
    (signed_in : bool) (w1 : World) : World :=
  let t := ticks w1 in
  let new_row := {| columns := schema;
                    rows := [[VStr login; VStr (toggled signed_in);
                              VStr (date (clock w1 (S (S t))));
                              VStr (time (clock w1 (S t)))]] |} in
  {| files := <[log_path self (clock w1 t) := pd.to_csv (concat df new_row)]>
                (files w1);
     clock := clock w1; ticks := S (S (S t)); id_entry := "";
     id_entry_focus := true; status_label := (thanks signed_in, "green");
     dialogs := dialogs w1 |}.

(** A text that [read_csv] keeps as it is, in whatever column it stands. *)
Definition plain (s : string) : bool := is_text (classify s).

Definition plain_value (v : value) : bool :=
  match v with
  | VStr s => plain s
  | VInt _ | VNaN => false
  end.

(** A table [read_csv] can read back: labels as in a header, every row as
    wide as the labels. *)
Definition well_formed (df : DataFrame) : bool :=
  match columns df with
  | [] => false
  | _ :: _ =>
      distinct (columns df) && negb (Text.mem "" (columns df))
      && forallb (fun r => (length r =? length (columns df))%nat) (rows df)
  end.

(** The world after an accepted submission that wrote the table [df'] to
    [path] and found the member signed in or not: four clock readings later,
    entry field cleared and focused. *)
Definition stamped (path : string) (df' : DataFrame) (signed_in : bool)
    (w : World) : World :=
  {| files := <[path := pd.to_csv df']> (files w); clock := clock w;
     ticks := S (S (S (S (ticks w)))); id_entry := ""; id_entry_focus := true;
     status_label := (thanks signed_in, "green"); dialogs := dialogs w |}.

(** Unfolding the handler and splitting its branches. *)
Ltac py_unfold :=
  unfold sign_in, daily_log_generation, log_student_sign_in,
    load_valid_users_from_csv, init, try_except, bind, ret, raise, lift, now,
    path_exists, read_csv, to_csv, id_entry_get, id_entry_delete,
    id_entry_focus_set, status_label_config, showerror, set_files in *.

Ltac py_cases :=
  simpl;
  repeat match goal with
         | |- context [if ?b then _ else _] => destruct b eqn:?; simpl
         | |- context [match ?x with _ => _ end] => destruct x eqn:?; simpl
         end.

(** * Properties *)

(** ** Sample cells *)

Example strip_sample : Text.strip "  12 3  " = "12 3".
Proof. reflexivity. Qed.

Example classify_sample :
  map classify ["123"; " +7 "; "A123"; "2024-03-05"; "18:00:01"; "Signed In";
                ""; "NA"; "12.5"; "1e3"; "True"; "9223372036854775808"]
  = [CellInt 123; CellInt 7; CellText; CellText; CellText; CellText;
     CellNA; CellNA; CellOther; CellOther; CellOther; CellOther].
Proof. vm_compute. reflexivity. Qed.

(** A column of numbers is read as integers, a column with a text keeps its
    texts, and a column of decimals is not tracked. *)
Example infer_dtype_sample :
  infer_dtype ["123"; "4567"] = Some int64 /\
  infer_dtype ["123"; "A7"] = Some object /\
  infer_dtype ["123"; "4.5"] = None.
Proof. vm_compute. auto. Qed.

(** ** Trimming *)

Lemma lstrip_blank (s : string) : Text.blank s = true -> Text.lstrip s = "".
Proof.
  induction s as [|c r IH]; simpl; [reflexivity|].
  intros [Hc Hr]%andb_prop. rewrite Hc. auto.
Qed.

Lemma lstrip_empty_blank (s : string) : Text.lstrip s = "" -> Text.blank s = true.
Proof.
  induction s as [|c r IH]; simpl; [reflexivity|].
  destruct (Text.isspace c); [auto | discriminate].
Qed.

Lemma rstrip_blank (s : string) : Text.blank s = true -> Text.rstrip s = "".
Proof.
  induction s as [|c r IH]; simpl; [reflexivity|].
  intros [Hc Hr]%andb_prop. rewrite (IH Hr), Hc. reflexivity.
Qed.

Lemma blank_rstrip (s : string) : Text.blank (Text.rstrip s) = true -> Text.blank s = true.
Proof.
  induction s as [|c r IH]; simpl; [reflexivity|].
  destruct (Text.rstrip r) as [|c' r'] eqn:E.
  - destruct (Text.isspace c) eqn:Hc; simpl.
    + intros _. apply IH. reflexivity.
    + rewrite Hc. discriminate.
  - simpl. intros [Hc Hr]%andb_prop. rewrite Hc. simpl. apply IH. exact Hr.
Qed.

(** [strip] answers the empty text exactly on the blank texts. *)
Lemma strip_empty_iff (s : string) : Text.strip s = "" <-> Text.blank s = true.
Proof.
  unfold Text.strip. split.
  - intros H. apply blank_rstrip, lstrip_empty_blank, H.
  - intros H. rewrite (rstrip_blank _ H). reflexivity.
Qed.

(** ** Running the handler *)

Lemma sign_in_blank (self : StudentSignInApp) (w : World) :
  Text.blank (id_entry w) = true ->
  sign_in self w = (Ok tt, turned_down "Please enter a Student ID" false w).
Proof.
  intros H%strip_empty_iff. py_unfold. rewrite H. reflexivity.
Qed.

Lemma sign_in_unknown (self : StudentSignInApp) (w : World) :
  Text.blank (id_entry w) = false ->
  Text.strip (id_entry w) ∉ valid_users self ->
  sign_in self w = (Ok tt, turned_down "Please enter a valid STUDENT ID" true w).
Proof.
  intros Hb Hn. py_unfold.
  destruct (String.eqb_spec (Text.strip (id_entry w)) "") as [E|_].
  - apply strip_empty_iff in E. congruence.
  - rewrite bool_decide_eq_false_2 by exact Hn. reflexivity.
Qed.

(** C4.  A submission whose text is empty or made of whitespace only is
    answered with the red status "Please enter a Student ID"; the handler
    returns normally and leaves every file as it was. *)
Theorem sign_in_empty_input (self : StudentSignInApp) (w : World) :
  Text.blank (id_entry w) = true ->
  fst (sign_in self w) = Ok tt /\
  status_label (snd (sign_in self w)) = ("Please enter a Student ID", "red") /\
  files (snd (sign_in self w)) = files w.
Proof.
  intros H. rewrite (sign_in_blank self w H). auto.
Qed.

Lemma sign_in_empty_input_witness :
  let w := type_text "   " scenario_world in
  Text.blank (id_entry w) = true /\
  status_label (snd (sign_in scenario_app w)) = ("Please enter a Student ID", "red") /\
  files (snd (sign_in scenario_app w)) = files w.
Proof.
  split; [reflexivity|].
  apply (sign_in_empty_input scenario_app (type_text "   " scenario_world)).
  reflexivity.
Defined.

(** C3.  A submission whose trimmed text is not empty and not in the roster
    set is answered with the red status "Please enter a valid STUDENT ID";
    the handler returns normally and leaves every file as it was. *)
Theorem sign_in_unknown_member (self : StudentSignInApp) (w : World) :
  Text.strip (id_entry w) <> "" ->
  Text.strip (id_entry w) ∉ valid_users self ->
  fst (sign_in self w) = Ok tt /\
  status_label (snd (sign_in self w))
    = ("Please enter a valid STUDENT ID", "red") /\
  files (snd (sign_in self w)) = files w.
Proof.
  intros Hne Hn.
  assert (Hb : Text.blank (id_entry w) = false).
  { destruct (Text.blank (id_entry w)) eqn:E; [|reflexivity].
    apply strip_empty_iff in E. contradiction. }
  rewrite (sign_in_unknown self w Hb Hn). auto.
Qed.

Lemma sign_in_unknown_member_witness :
  let w := type_text " 999 " scenario_world in
  status_label (snd (sign_in scenario_app w))
    = ("Please enter a valid STUDENT ID", "red") /\
  files (snd (sign_in scenario_app w)) = files w.
Proof.
  apply (sign_in_unknown_member scenario_app (type_text " 999 " scenario_world)).
  - simpl. discriminate.
  - simpl. apply not_elem_of_singleton. discriminate.
Defined.

(** C6.  The handler run on a whitespace-only text while the entry field
    does not hold the focus (the button was clicked): it returns with the
    text still in the field and the field still without the focus.  On an
    unknown member it clears the field and leaves the focus where it was. *)
Theorem sign_in_rejection_keeps_entry :
  let w := submit scenario_app "   " scenario_world in
  let w' := submit scenario_app "999" scenario_world in
  (id_entry w = "   " /\ id_entry_focus w = false) /\
  (id_entry w' = "" /\ id_entry_focus w' = false).
Proof. vm_compute. auto. Qed.

(** C1.  The scenario of the specification, run on the code: roster {"123"},
    no log file for today, "123" submitted twice.  The first line written is
    read back as the integer 123, which no str equals, so the second
    submission writes "Signed In" again and announces a sign-in. *)
Theorem numeric_member_signed_in_twice :
  let w1 := submit scenario_app "123" scenario_world in
  let w2 := submit scenario_app "123" w1 in
  files w1 !! todays_log
    = Some {| header := schema;
              lines := [["123"; "Signed In"; today; "18:00:01"]] |} /\
  pd.read_csv (files w1) todays_log
    = Ok {| columns := schema;
            rows := [[VInt 123; VStr "Signed In"; VStr today; VStr "18:00:01"]] |} /\
  files w2 !! todays_log
    = Some {| header := schema;
              lines := [["123"; "Signed In"; today; "18:00:01"];
                        ["123"; "Signed In"; today; "18:07:30"]] |} /\
  status_label w2 = ("Thank you. You have been signed in.", "green").
Proof. vm_compute. auto. Qed.

(** The same scenario with a member whose identifier is not a number toggles
    as intended, and a third submission signs out again. *)
Example text_member_toggles :
  let app := {| directory := "daily_logs"; valid_users := {["A123"]} |} in
  let w3 := session app ["A123"; "A123"; "A123"] scenario_world in
  files w3 !! todays_log
    = Some {| header := schema;
              lines := [["A123"; "Signed In"; today; "18:00:01"];
                        ["A123"; "Signed Out"; today; "18:07:30"];
                        ["A123"; "Signed Out"; today; "18:09:12"]] |}.
Proof. vm_compute. reflexivity. Qed.

(** ** The sign-in check *)

Lemma empty_select_false (cols : list string) (mask : list bool)
    (rs : list (list value)) :
  cols <> [] ->
  negb (empty {| columns := cols; rows := select mask rs |}) = true
  <-> exists r, In r (select mask rs).
Proof.
  intros Hc. unfold empty. simpl.
  destruct cols as [|c cols]; [contradiction|].
  destruct (select mask rs) as [|r rs']; simpl.
  - split; [discriminate | intros [r []]].
  - split; [eauto | reflexivity].
Qed.

Lemma select_mask_and (i j : nat) (id st : string) (rs : list (list value))
    (r : list value) :
  In r (select (mask_and (map (eq_str id) (map (cell i) rs))
                         (map (eq_str st) (map (cell j) rs))) rs)
  <-> In r rs /\ cell i r = VStr id /\ cell j r = VStr st.
Proof.
  induction rs as [|x rs IH]; simpl.
  - tauto.
  - assert (Hx : eq_str id (cell i x) && eq_str st (cell j x) = true
                 <-> cell i x = VStr id /\ cell j x = VStr st).
    { rewrite andb_true_iff. unfold eq_str.
      destruct (cell i x) as [|a|], (cell j x) as [|b|];
        try (split; [intros [? ?]; discriminate | intros [? ?]; discriminate]).
      rewrite !String.eqb_eq. split; intros [? ?]; split; congruence. }
    destruct (eq_str id (cell i x) && eq_str st (cell j x)) eqn:E; simpl.
    + rewrite IH. split.
      * intros [<-|[H1 H2]]; [split; [auto | apply Hx; reflexivity] | tauto].
      * tauto.
    + rewrite IH. split; [tauto|].
      intros [[<-|H1] H2]; [|tauto].
      apply Hx in H2. discriminate.
Qed.

(** C2.  On a table with one "Student ID" and one "Status" column the check
    returns, and it answers True exactly when some row holds the text
    [student_id] under "Student ID" and the text "Signed In" under "Status".
    Rows added after such a row, whatever they hold, do not change the
    answer. *)
Theorem student_already_signed_in_exists (df : DataFrame) (student_id : string)
    (i j : nat) :
  positions "Student ID" (columns df) = [i] ->
  positions "Status" (columns df) = [j] ->
  (exists b, student_already_signed_in df student_id = Ok b /\
     (b = true <->
      exists r, In r (rows df) /\ cell i r = VStr student_id /\
                cell j r = VStr "Signed In")) /\
  (student_already_signed_in df student_id = Ok true ->
   forall later,
     student_already_signed_in
       {| columns := columns df; rows := (rows df ++ later)%list |} student_id
     = Ok true).
Proof.
  intros Hi Hj.
  assert (Hc : columns df <> []).
  { intros E. rewrite E in Hi. discriminate. }
  assert (Hgen : forall rs,
    student_already_signed_in {| columns := columns df; rows := rs |} student_id
    = Ok (negb (empty {| columns := columns df;
             rows := select (mask_and (map (eq_str student_id) (map (cell i) rs))
                               (map (eq_str "Signed In") (map (cell j) rs))) rs |}))).
  { intros rs. unfold student_already_signed_in, getitem. simpl.
    rewrite Hi, Hj. reflexivity. }
  assert (Hdf : df = {| columns := columns df; rows := rows df |})
    by (destruct df; reflexivity).
  split.
  - eexists. split; [rewrite Hdf at 1; apply Hgen|].
    rewrite (empty_select_false _ _ _ Hc).
    split.
    + intros [r Hr]. exists r. apply select_mask_and, Hr.
    + intros [r Hr]. exists r. apply select_mask_and, Hr.
  - rewrite Hdf at 1. rewrite Hgen. intros [=H] later. rewrite Hgen. f_equal.
    apply (empty_select_false _ _ _ Hc) in H as [r Hr].
    apply (empty_select_false _ _ _ Hc). exists r.
    apply select_mask_and. apply select_mask_and in Hr.
    destruct Hr as (H1 & H2). split; [apply in_or_app; auto | exact H2].
Qed.

Lemma student_already_signed_in_exists_witness :
  let df := {| columns := schema;
               rows := [[VStr "A123"; VStr "Signed In"; VStr today; VStr "18:00:01"];
                        [VStr "A123"; VStr "Signed Out"; VStr today; VStr "18:07:30"]] |} in
  student_already_signed_in df "A123" = Ok true.
Proof.
  intros df.
  destruct (student_already_signed_in_exists df "A123" 0 1 eq_refl eq_refl)
    as [[b [Hb Hiff]] _].
  rewrite Hb. f_equal. apply Hiff.
  exists [VStr "A123"; VStr "Signed In"; VStr today; VStr "18:00:01"].
  simpl. auto.
Defined.

(** ** Opening the daily log *)

Lemma classify_int (s : string) (z : Z) :
  classify s = CellInt z -> str_to_int64 s = Some z.
Proof.
  unfold classify. destruct (is_na s); [discriminate|].
  destruct (str_to_int64 s) as [z'|]; [congruence|].
  destruct (looks_like_double s || is_special_word s); discriminate.
Qed.

(** Under the dtype inferred for a column, each of its cells is read as
    itself. *)
Lemma convert_reads (cells : list string) (d : dtype) (s : string) :
  infer_dtype cells = Some d -> In s cells -> reads_as s (convert d s).
Proof.
  intros Hd Hs. destruct d; simpl.
  - unfold infer_dtype in Hd.
    destruct (forallb is_int (map classify cells)) eqn:Hall.
    + rewrite forallb_forall in Hall.
      specialize (Hall (classify s) (in_map _ _ _ Hs)).
      destruct (classify s) as [|z| |] eqn:Hk; try discriminate.
      rewrite (classify_int _ _ Hk). constructor. apply classify_int, Hk.
    + destruct (existsb is_text (map classify cells)); discriminate.
  - destruct (is_na s) eqn:E; constructor; exact E.
Qed.

Lemma read_line_reads (width : nat) (ls : list (list string)) (ds : list dtype)
    (l : list string) :
  infer_dtypes width ls = Some ds -> In l ls ->
  length (read_line ds l) = width /\
  forall j, (j < width)%nat -> reads_as (nth j l "") (cell j (read_line ds l)).
Proof.
  unfold infer_dtypes. intros Hds%mapM_Some Hl.
  pose proof (Forall2_length _ _ _ Hds) as Hlen. rewrite length_seq in Hlen.
  unfold read_line. rewrite length_imap. split; [auto|].
  intros j Hj. unfold cell.
  destruct (lookup_lt_is_Some_2 ds j) as [d Hd]; [lia|].
  rewrite (nth_lookup_Some _ _ _ (convert d (nth j l ""))).
  2:{ rewrite list_lookup_imap, Hd. reflexivity. }
  assert (Hseq : seq 0 width !! j = Some j) by (apply lookup_seq; lia).
  pose proof (Forall2_lookup_lr _ _ _ _ _ _ Hds Hseq Hd) as Hinf.
  eapply convert_reads; [exact Hinf|].
  unfold column_cells. exact (in_map (fun l => nth j l "") ls l Hl).
Qed.

(** [read_csv] keeps the lines of the file, in their order, as the rows. *)
Lemma parse_rows (f : csv) (df : DataFrame) :
  parse f = Ok df ->
  columns df = header f /\
  length (rows df) = length (lines f) /\
  forall i l, lines f !! i = Some l ->
    exists r, rows df !! i = Some r /\
      length r = length (header f) /\
      forall j, (j < length (header f))%nat -> reads_as (nth j l "") (cell j r).
Proof.
  unfold parse. destruct (header f) as [|h hs] eqn:Hh; [discriminate|].
  destruct (negb (regular f)); [discriminate|].
  destruct (infer_dtypes _ _) as [ds|] eqn:Hds; [|discriminate].
  intros [= <-]. simpl. split; [reflexivity|]. split; [apply length_map|].
  intros i l Hi. exists (read_line ds l). split.
  - rewrite list_lookup_fmap, Hi. reflexivity.
  - apply (read_line_reads _ _ _ _ Hds).
    apply list_elem_of_In, list_elem_of_lookup. eauto.
Qed.

(** C7.  [daily_log_generation] opens the log of the date the clock shows.
    When no file is there, it writes a file with the header Student ID,
    Status, Date, Time and no line, and returns the table with these columns
    and no row.  When a file is there and [read_csv] reads it, it returns
    the table read and writes nothing: the columns are the header, and row
    [i] is line [i] of the file, cell by cell. *)
Theorem daily_log_generation_opens (self : StudentSignInApp) (w : World) :
  let path := log_path self (clock w (ticks w)) in
  (files w !! path = None ->
   fst (daily_log_generation self w) = Ok (empty_frame schema) /\
   files (snd (daily_log_generation self w))
     = <[path := {| header := schema; lines := [] |}]> (files w)) /\
  (forall f df, files w !! path = Some f -> parse f = Ok df ->
   daily_log_generation self w = (Ok df, later 1 w) /\
   columns df = header f /\
   length (rows df) = length (lines f) /\
   forall i l, lines f !! i = Some l ->
     exists r, rows df !! i = Some r /\
       length r = length (header f) /\
       forall j, (j < length (header f))%nat ->
         reads_as (nth j l "") (cell j r)).
Proof.
  intros path. split.
  - intros Hnone. py_unfold. unfold pd.read_csv. simpl.
    fold (log_path self (clock w (ticks w))). fold path.
    rewrite Hnone. rewrite bool_decide_eq_false_2 by (intros [? ?]; discriminate).
    simpl. rewrite lookup_insert_eq. split; reflexivity.
  - intros f df Hf Hp. split; [|apply parse_rows, Hp].
    py_unfold. unfold pd.read_csv. simpl.
    fold (log_path self (clock w (ticks w))). fold path.
    rewrite Hf. rewrite bool_decide_eq_true_2 by eauto.
    simpl. rewrite Hf, Hp. reflexivity.
Qed.

Lemma daily_log_generation_opens_witness :
  let w1 := submit scenario_app "123" scenario_world in
  let df := {| columns := schema;
               rows := [[VInt 123; VStr "Signed In"; VStr today; VStr "18:00:01"]] |} in
  fst (daily_log_generation scenario_app scenario_world) = Ok (empty_frame schema) /\
  daily_log_generation scenario_app w1 = (Ok df, later 1 w1).
Proof.
  split.
  - apply (daily_log_generation_opens scenario_app scenario_world). reflexivity.
  - eapply (proj2 (daily_log_generation_opens scenario_app
                     (submit scenario_app "123" scenario_world))).
    + vm_compute. reflexivity.
    + vm_compute. reflexivity.
Defined.

(** ** Appending to the daily log *)

Lemma realign_schema (r : list value) :
  length r = 4%nat -> realign schema schema r = r.
Proof.
  destruct r as [|a [|b [|c [|d [|e r]]]]]; try discriminate. reflexivity.
Qed.

Lemma concat_schema (df : DataFrame) (new : list value) :
  columns df = schema -> Forall (fun r => length r = 4%nat) (rows df) ->
  length new = 4%nat ->
  concat df {| columns := schema; rows := [new] |}
  = {| columns := schema; rows := (rows df ++ [new])%list |}.
Proof.
  intros Hc Hr Hn.
  assert (Hcols : (schema ++ List.filter (fun c => negb (Text.mem c schema))
                                         schema)%list = schema) by reflexivity.
  unfold concat. cbn [columns rows]. rewrite Hc, Hcols. f_equal.
  change (map (realign schema schema) [new]) with [realign schema schema new].
  rewrite (realign_schema new Hn). f_equal.
  induction Hr as [|r rs Hlen _ IH]; [reflexivity|].
  cbn [map]. rewrite (realign_schema r Hlen), IH. reflexivity.
Qed.









Lemma positions_from_nil (i : nat) (key : string) (cols : list string) :
  positions_from i key cols = [] <-> Text.mem key cols = false.
Proof.
  revert i. induction cols as [|c cols IH]; intros i; simpl; [tauto|].
  destruct (String.eqb key c); simpl; [|apply IH].
  split; discriminate.
Qed.









(** ** The files a session touches *)

Lemma sign_in_frame (self : StudentSignInApp) (w : World) (D : string) :
  (forall n, date (clock w n) = D) ->
  clock (snd (sign_in self w)) = clock w /\
  forall p, p <> path_join (directory self) (D ++ ".csv") ->
    files (snd (sign_in self w)) !! p = files w !! p.
Proof.
  intros HD. py_unfold. unfold pd.read_csv.
  py_cases; rewrite ?HD; (split; [reflexivity|]); intros p Hp; simpl;
    rewrite ?lookup_insert_ne by congruence; reflexivity.
Qed.

(** C9.  While the clock shows the date [D], a session of submissions, of
    whatever texts, leaves every file other than the log named for [D] as it
    was: absent if it was absent, unchanged if it was there. *)
Theorem session_touches_only_todays_log (self : StudentSignInApp)
    (texts : list string) (w : World) (D : string) :
  (forall n, date (clock w n) = D) ->
  forall p, p <> path_join (directory self) (D ++ ".csv") ->
    files (session self texts w) !! p = files w !! p.
Proof.
  unfold session. revert w.
  induction texts as [|text texts IH]; intros w HD p Hp; simpl; [reflexivity|].
  destruct (sign_in_frame self (type_text text w) D HD) as [Hclock Hfiles].
  rewrite IH.
  - unfold submit. rewrite (Hfiles p Hp). reflexivity.
  - intros n. unfold submit. rewrite Hclock. apply HD.
  - exact Hp.
Qed.

Lemma session_touches_only_todays_log_witness :
  files (session scenario_app ["123"; " "; "999"; "123"] scenario_world)
    !! "daily_logs/2024-03-06.csv" = None.
Proof.
  rewrite (session_touches_only_todays_log scenario_app
             ["123"; " "; "999"; "123"] scenario_world today).
  - reflexivity.
  - intros n. reflexivity.
  - discriminate.
Defined.

(** ** The roster *)

Lemma sign_in_empty_roster (dir : string) (w : World) :
  files (snd (sign_in {| directory := dir; valid_users := ∅ |} w)) = files w /\
  (status_label (snd (sign_in {| directory := dir; valid_users := ∅ |} w))
     = ("Please enter a Student ID", "red") \/
   status_label (snd (sign_in {| directory := dir; valid_users := ∅ |} w))
     = ("Please enter a valid STUDENT ID", "red")).
Proof.
  destruct (Text.blank (id_entry w)) eqn:Hb.
  - rewrite (sign_in_blank _ w Hb). auto.
  - rewrite (sign_in_unknown _ w Hb); [auto|]. apply not_elem_of_empty.
Qed.

(** C5.  When the roster file is missing, and when it is read but no header
    name is "Student ID" after trimming, [load_valid_users_from_csv] returns
    the empty set and has shown one error dialog; it does not raise.  With
    the empty set as roster every submission is turned down and no file is
    written. *)
Theorem load_valid_users_fails_softly (file_path : string) (w : World) :
  (files w !! file_path = None ->
   load_valid_users_from_csv file_path w
   = (Ok ∅, shown (Plain (file_path ++ " file not found!")) w)) /\
  (forall f df, files w !! file_path = Some f -> parse f = Ok df ->
   Text.mem "Student ID" (map Text.strip (header f)) = false ->
   load_valid_users_from_csv file_path w
   = (Ok ∅, shown (StrOf (KeyError (ColumnNotFound "Student ID" file_path
                                      (map Text.strip (header f))))) w)) /\
  (forall dir w',
   let w'' := snd (sign_in {| directory := dir; valid_users := ∅ |} w') in
   files w'' = files w' /\
   (status_label w'' = ("Please enter a Student ID", "red") \/
    status_label w'' = ("Please enter a valid STUDENT ID", "red"))).
Proof.
  split; [|split].
  - intros Hnone. py_unfold. unfold pd.read_csv. rewrite Hnone.
    destruct w; reflexivity.
  - intros f df Hf Hp Hmem.
    destruct (parse_rows f df Hp) as [Hcols _].
    py_unfold. unfold pd.read_csv. rewrite Hf, Hp. cbn [columns].
    rewrite Hcols, Hmem. destruct w; reflexivity.
  - intros dir w'. apply sign_in_empty_roster.
Qed.

Lemma load_valid_users_fails_softly_witness :
  fst (load_valid_users_from_csv "Robotics Club Member Roster CSV.csv"
         scenario_world) = Ok ∅ /\
  (let w := set_files {["roster.csv" := {| header := ["Name"; "ID"];
                                           lines := [["Ada"; "123"]] |}]}
                       scenario_world in
   fst (load_valid_users_from_csv "roster.csv" w) = Ok ∅).
Proof.
  split.
  - rewrite (proj1 (load_valid_users_fails_softly
                      "Robotics Club Member Roster CSV.csv" scenario_world));
      reflexivity.
  - intros w.
    erewrite (proj1 (proj2 (load_valid_users_fails_softly "roster.csv" w)));
      [reflexivity | vm_compute; reflexivity | vm_compute; reflexivity
      | reflexivity].
Defined.

(** C10.  A roster whose identifiers are numbers, one of them written 007.
    [read_csv] reads the column as integers and [astype(str)] prints them,
    so the set loaded is {"7", "123"}: the entry 123 is matched by the text
    123, but the entry 007 is not matched by the text 007, which the handler
    turns down as unknown; the text 7 is accepted and logged in its place. *)
Theorem zero_padded_member_is_turned_down :
  let w := set_files {[roster_path := zero_padded_roster]} scenario_world in
  exists app,
    init w = (Ok app, w) /\
    valid_users app = {["7"; "123"]} /\
    sign_in app (type_text "007" w)
    = (Ok tt, turned_down "Please enter a valid STUDENT ID" true
                (type_text "007" w)) /\
    files (submit app "7" w) !! todays_log
    = Some {| header := schema;
              lines := [["7"; "Signed In"; today; "18:00:01"]] |}.
Proof.
  intros w. eexists. split; [vm_compute; reflexivity|].
  split; [vm_compute; reflexivity|].
  split; vm_compute; reflexivity.
Qed.

(** * Further properties of the handler *)

(** ** The path of an accepted submission *)

Lemma daily_log_generation_absent (self : StudentSignInApp) (w : World) :
  files w !! log_path self (clock w (ticks w)) = None ->
  daily_log_generation self w
  = (Ok (empty_frame schema),
     set_files (<[log_path self (clock w (ticks w))
                  := {| header := schema; lines := [] |}]> (files w))
               (later 1 w)).
Proof.
  intros Hnone. py_unfold. unfold pd.read_csv. simpl.
  fold (log_path self (clock w (ticks w))).
  rewrite Hnone. rewrite bool_decide_eq_false_2 by (intros [? ?]; discriminate).
  simpl. rewrite lookup_insert_eq. reflexivity.
Qed.

Lemma daily_log_generation_present (self : StudentSignInApp) (w : World)
    (f : csv) :
  files w !! log_path self (clock w (ticks w)) = Some f ->
  daily_log_generation self w = (parse f, later 1 w).
Proof.
  intros Hf. py_unfold. unfold pd.read_csv. simpl.
  fold (log_path self (clock w (ticks w))).
  rewrite Hf. rewrite bool_decide_eq_true_2 by eauto.
  simpl. rewrite Hf. reflexivity.
Qed.

(** The handler past the validation: it opens the log, runs the check and
    logs the opposite status. *)
Lemma sign_in_accepted (self : StudentSignInApp) (w : World) :
  Text.strip (id_entry w) <> "" ->
  Text.strip (id_entry w) ∈ valid_users self ->
  sign_in self w
  = match daily_log_generation self w with
    | (Ok df, w1) =>
        match student_already_signed_in df (Text.strip (id_entry w)) with
        | Ok b => (Ok tt, logged self (Text.strip (id_entry w)) df b w1)
        | Raise e => (Raise e, later 1 w1)
        end
    | (Raise e, w1) => (Raise e, w1)
    end.
Proof.
  intros Hne Hin. unfold sign_in, bind, id_entry_get.
  destruct (String.eqb_spec (Text.strip (id_entry w)) "") as [E|_];
    [contradiction|].
  rewrite bool_decide_eq_true_2 by exact Hin. cbn [negb].
  destruct (daily_log_generation self w) as [[df|e] w1]; [|reflexivity].
  unfold now, lift.
  destruct (student_already_signed_in df (Text.strip (id_entry w))) as [b|e];
    [|reflexivity].
  destruct b; reflexivity.
Qed.

Lemma parse_row_widths (f : csv) (df : DataFrame) :
  parse f = Ok df ->
  Forall (fun r => length r = length (columns df)) (rows df).
Proof.
  intros Hp. destruct (parse_rows f df Hp) as (Hc & Hlen & Hrows).
  apply Forall_lookup. intros i r Hr.
  destruct (lookup_lt_is_Some_2 (lines f) i) as [l Hl].
  { rewrite <- Hlen. eapply lookup_lt_Some, Hr. }
  destruct (Hrows i l Hl) as (r' & Hr' & Hw & _).
  rewrite Hc. congruence.
Qed.

Lemma check_returns_on_schema (df : DataFrame) (student_id : string) :
  columns df = schema ->
  exists b, student_already_signed_in df student_id = Ok b.
Proof.
  destruct df as [cols rs]. simpl. intros ->.
  unfold student_already_signed_in, getitem. simpl. eauto.
Qed.

(* The run of the first accepted submission of a day. *)
Lemma first_of_day_run (self : StudentSignInApp) (w : World) :
  let login := Text.strip (id_entry w) in
  let t := ticks w in
  login <> "" -> login ∈ valid_users self ->
  files w !! log_path self (clock w t) = None ->
  date (clock w (S t)) = date (clock w t) ->
  sign_in self w
  = (Ok tt,
     {| files := <[log_path self (clock w t)
                   := {| header := schema;
                         lines := [[login; "Signed In";
                                    date (clock w (S (S (S t))));
                                    time (clock w (S (S t)))]] |}]> (files w);
        clock := clock w; ticks := S (S (S (S t))); id_entry := "";
        id_entry_focus := true;
        status_label := ("Thank you. You have been signed in.", "green");
        dialogs := dialogs w |}).
Proof.
  intros login t Hne Hin Hnone Hdate.
  rewrite (sign_in_accepted self w Hne Hin).
  rewrite (daily_log_generation_absent self w Hnone).
  change (student_already_signed_in (empty_frame schema) (Text.strip (id_entry w)))
    with (@Ok bool false).
  unfold logged, set_files, later. cbn [files clock ticks dialogs].
  assert (Hp : log_path self (clock w (1 + ticks w))
               = log_path self (clock w t)).
  { unfold log_path. cbn [Nat.add]. fold t. rewrite Hdate. reflexivity. }
  rewrite Hp, insert_insert_eq. reflexivity.
Qed.

(** The first accepted submission of a day.  When no log is there for the
    date the clock shows and the date does not change before the next
    reading, the handler returns after creating that day's log with the one
    line {login, Signed In, date, time}; it announces the sign-in in green,
    clears the entry field and gives it the focus; it has read the clock
    four times. *)
Theorem sign_in_first_of_day (self : StudentSignInApp) (w : World) :
  let login := Text.strip (id_entry w) in
  let t := ticks w in
  login <> "" -> login ∈ valid_users self ->
  files w !! log_path self (clock w t) = None ->
  date (clock w (S t)) = date (clock w t) ->
  sign_in self w
  = (Ok tt,
     {| files := <[log_path self (clock w t)
                   := {| header := schema;
                         lines := [[login; "Signed In";
                                    date (clock w (S (S (S t))));
                                    time (clock w (S (S t)))]] |}]> (files w);
        clock := clock w; ticks := S (S (S (S t))); id_entry := "";
        id_entry_focus := true;
        status_label := ("Thank you. You have been signed in.", "green");
        dialogs := dialogs w |}).
Proof. exact (first_of_day_run self w). Qed.

Lemma sign_in_first_of_day_witness :
  let w := type_text " 123 " scenario_world in
  files (snd (sign_in scenario_app w)) !! todays_log
  = Some {| header := schema;
            lines := [["123"; "Signed In"; today; "18:00:01"]] |}.
Proof.
  intros w.
  rewrite (sign_in_first_of_day scenario_app w).
  - cbn [snd files]. apply lookup_insert_eq.
  - discriminate.
  - vm_compute. reflexivity.
  - reflexivity.
  - reflexivity.
Defined.

(* The run of an accepted submission on a log that is there. *)
Lemma existing_log_run (self : StudentSignInApp) (w : World) (f : csv)
    (df : DataFrame) :
  let login := Text.strip (id_entry w) in
  let t := ticks w in
  let p0 := log_path self (clock w t) in
  let p1 := log_path self (clock w (S t)) in
  login <> "" -> login ∈ valid_users self ->
  files w !! p0 = Some f -> parse f = Ok df -> columns df = schema ->
  exists b,
    student_already_signed_in df login = Ok b /\
    sign_in self w
    = (Ok tt,
       {| files := <[p1 := {| header := schema;
                              lines := (map (map to_text) (rows df)
                                        ++ [[login; toggled b;
                                             date (clock w (S (S (S t))));
                                             time (clock w (S (S t)))]])%list |}]>
                     (files w);
          clock := clock w; ticks := S (S (S (S t))); id_entry := "";
          id_entry_focus := true; status_label := (thanks b, "green");
          dialogs := dialogs w |}) /\
    (p1 <> p0 -> files (snd (sign_in self w)) !! p0 = Some f).
Proof.
  intros login t p0 p1 Hne Hin Hf Hp Hc.
  destruct (check_returns_on_schema df login Hc) as [b Hb].
  exists b. split; [exact Hb|].
  assert (Hrun : sign_in self w = (Ok tt, logged self login df b (later 1 w))).
  { rewrite (sign_in_accepted self w Hne Hin).
    rewrite (daily_log_generation_present self w f Hf), Hp.
    fold login. rewrite Hb. reflexivity. }
  assert (Hw : Forall (fun r => length r = 4%nat) (rows df)).
  { pose proof (parse_row_widths f df Hp) as H. rewrite Hc in H. exact H. }
  rewrite Hrun. unfold logged, later. cbn [files clock ticks dialogs snd].
  rewrite (concat_schema df _ Hc Hw) by reflexivity.
  unfold pd.to_csv. cbn [columns rows]. rewrite map_app.
  split; [reflexivity|].
  intros Hp1. rewrite lookup_insert_ne by exact Hp1. exact Hf.
Qed.

(** An accepted submission on a log that is there.  The handler reads the
    file named for the first clock reading and writes the file named for the
    second: the rows read, as [to_csv] prints them, followed by the one new
    line with the opposite of the status found.  When the date changes
    between the two readings the rows of the old day are copied to the new
    day's file and the old file stays as it was. *)
Theorem sign_in_existing_log (self : StudentSignInApp) (w : World) (f : csv)
    (df : DataFrame) :
  let login := Text.strip (id_entry w) in
  let t := ticks w in
  let p0 := log_path self (clock w t) in
  let p1 := log_path self (clock w (S t)) in
  login <> "" -> login ∈ valid_users self ->
  files w !! p0 = Some f -> parse f = Ok df -> columns df = schema ->
  exists b,
    student_already_signed_in df login = Ok b /\
    sign_in self w
    = (Ok tt,
       {| files := <[p1 := {| header := schema;
                              lines := (map (map to_text) (rows df)
                                        ++ [[login; toggled b;
                                             date (clock w (S (S (S t))));
                                             time (clock w (S (S t)))]])%list |}]>
                     (files w);
          clock := clock w; ticks := S (S (S (S t))); id_entry := "";
          id_entry_focus := true; status_label := (thanks b, "green");
          dialogs := dialogs w |}) /\
    (p1 <> p0 -> files (snd (sign_in self w)) !! p0 = Some f).
Proof. exact (existing_log_run self w f df). Qed.

Lemma sign_in_existing_log_witness :
  let w := type_text "A123"
             (submit {| directory := "daily_logs"; valid_users := {["A123"]} |}
                     "A123" scenario_world) in
  exists b,
    student_already_signed_in
      {| columns := schema;
         rows := [[VStr "A123"; VStr "Signed In"; VStr today; VStr "18:00:01"]] |}
      "A123" = Ok b.
Proof.
  intros w.
  destruct (sign_in_existing_log
              {| directory := "daily_logs"; valid_users := {["A123"]} |} w
              {| header := schema;
                 lines := [["A123"; "Signed In"; today; "18:00:01"]] |}
              {| columns := schema;
                 rows := [[VStr "A123"; VStr "Signed In"; VStr today;
                           VStr "18:00:01"]] |})
    as (b & Hb & _).
  - discriminate.
  - vm_compute. reflexivity.
  - vm_compute. reflexivity.
  - vm_compute. reflexivity.
  - reflexivity.
  - exists b. exact Hb.
Defined.

(** ** Logs the handler cannot use *)

Lemma getitem_missing (df : DataFrame) (key : string) :
  Text.mem key (columns df) = false ->
  getitem df key = Raise (KeyError (Label key)).
Proof.
  intros H%(positions_from_nil 0). unfold getitem, positions. rewrite H.
  reflexivity.
Qed.

Lemma getitem_present (df : DataFrame) (key : string) :
  Text.mem key (columns df) = true -> exists sel, getitem df key = Ok sel.
Proof.
  intros H. unfold getitem.
  destruct (positions key (columns df)) as [|i [|j js]] eqn:E; eauto.
  apply (positions_from_nil 0) in E. congruence.
Qed.

(** An accepted submission on a log without a "Student ID" column, or with
    it but without a "Status" column, raises the KeyError of the missing
    label.  Nothing is written, the status label and the entry field stay as
    they were; the clock has been read twice. *)
Theorem sign_in_missing_column_raises (self : StudentSignInApp) (w : World)
    (f : csv) (df : DataFrame) :
  Text.strip (id_entry w) <> "" ->
  Text.strip (id_entry w) ∈ valid_users self ->
  files w !! log_path self (clock w (ticks w)) = Some f ->
  parse f = Ok df ->
  (Text.mem "Student ID" (columns df) = false ->
   sign_in self w = (Raise (KeyError (Label "Student ID")), later 2 w)) /\
  (Text.mem "Student ID" (columns df) = true ->
   Text.mem "Status" (columns df) = false ->
   sign_in self w = (Raise (KeyError (Label "Status")), later 2 w)).
Proof.
  intros Hne Hin Hf Hp.
  rewrite (sign_in_accepted self w Hne Hin).
  rewrite (daily_log_generation_present self w f Hf), Hp.
  unfold student_already_signed_in. split.
  - intros Hid. rewrite (getitem_missing df _ Hid). reflexivity.
  - intros Hid Hst. destruct (getitem_present df _ Hid) as [sel ->].
    rewrite (getitem_missing df _ Hst). destruct sel; reflexivity.
Qed.

Lemma sign_in_missing_column_raises_witness :
  let f := {| header := ["Name"; "Status"]; lines := [["Ada"; "Signed In"]] |} in
  let w := type_text "123" (set_files {[todays_log := f]} scenario_world) in
  sign_in scenario_app w = (Raise (KeyError (Label "Student ID")), later 2 w).
Proof.
  intros f w.
  apply (sign_in_missing_column_raises scenario_app w f
           {| columns := ["Name"; "Status"];
              rows := [[VStr "Ada"; VStr "Signed In"]] |}).
  - discriminate.
  - vm_compute. reflexivity.
  - vm_compute. reflexivity.
  - vm_compute. reflexivity.
  - reflexivity.
Defined.

(** An accepted submission on a log file without a header line (an empty
    file) raises EmptyDataError out of [read_csv]: nothing is written and
    nothing is shown. *)
Theorem sign_in_empty_log_raises (self : StudentSignInApp) (w : World)
    (f : csv) :
  Text.strip (id_entry w) <> "" ->
  Text.strip (id_entry w) ∈ valid_users self ->
  files w !! log_path self (clock w (ticks w)) = Some f ->
  header f = [] ->
  sign_in self w = (Raise EmptyDataError, later 1 w).
Proof.
  intros Hne Hin Hf Hh.
  rewrite (sign_in_accepted self w Hne Hin).
  rewrite (daily_log_generation_present self w f Hf).
  unfold parse. rewrite Hh. reflexivity.
Qed.

Lemma sign_in_empty_log_raises_witness :
  let w := type_text "123"
             (set_files {[todays_log := {| header := []; lines := [] |}]}
                        scenario_world) in
  sign_in scenario_app w = (Raise EmptyDataError, later 1 w).
Proof.
  intros w.
  apply (sign_in_empty_log_raises scenario_app w {| header := []; lines := [] |}).
  - discriminate.
  - vm_compute. reflexivity.
  - vm_compute. reflexivity.
  - reflexivity.
Defined.

(** ** What the handler keeps *)

(** An accepted submission on a log with one "Student ID" and one "Status"
    column, whatever its other columns: the handler returns, and the file it
    writes has the labels of the file read in front and one line more than
    the file read. *)
Theorem sign_in_adds_one_line (self : StudentSignInApp) (w : World) (f : csv)
    (df : DataFrame) (i j : nat) :
  Text.strip (id_entry w) <> "" ->
  Text.strip (id_entry w) ∈ valid_users self ->
  files w !! log_path self (clock w (ticks w)) = Some f ->
  parse f = Ok df ->
  positions "Student ID" (columns df) = [i] ->
  positions "Status" (columns df) = [j] ->
  fst (sign_in self w) = Ok tt /\
  exists g more,
    files (snd (sign_in self w)) !! log_path self (clock w (S (ticks w)))
    = Some g /\
    header g = (header f ++ more)%list /\
    length (lines g) = S (length (lines f)).
Proof.
  intros Hne Hin Hf Hp Hi Hj.
  rewrite (sign_in_accepted self w Hne Hin).
  rewrite (daily_log_generation_present self w f Hf), Hp.
  unfold student_already_signed_in, getitem. rewrite Hi, Hj.
  cbn [fst snd]. split; [reflexivity|].
  unfold logged, later. cbn [files clock ticks Nat.add].
  eexists _, _. split; [apply lookup_insert_eq|].
  destruct (parse_rows f df Hp) as (Hc & Hlen & _).
  unfold pd.to_csv, concat. cbn [header lines columns rows].
  rewrite Hc. split; [reflexivity|].
  rewrite length_map, length_app, !length_map, Hlen. simpl. lia.
Qed.

Lemma sign_in_adds_one_line_witness :
  let f := {| header := ["Status"; "Student ID"; "Room"];
              lines := [["Signed In"; "A7"; "B-12"]] |} in
  let w := type_text "123" (set_files {[todays_log := f]} scenario_world) in
  fst (sign_in scenario_app w) = Ok tt.
Proof.
  intros f w.
  apply (sign_in_adds_one_line scenario_app w f
           {| columns := ["Status"; "Student ID"; "Room"];
              rows := [[VStr "Signed In"; VStr "A7"; VStr "B-12"]] |} 1 0).
  - discriminate.
  - vm_compute. reflexivity.
  - vm_compute. reflexivity.
  - vm_compute. reflexivity.
  - reflexivity.
  - reflexivity.
Defined.

(** The handler never opens a dialog and never sets the clock: whatever the
    entry holds and whatever the files are, the dialogs shown and the clock
    are the same after it, it has read the clock at most four times, and the
    status label it leaves is the one it found or one of its four
    messages. *)
Theorem sign_in_shows_no_dialog (self : StudentSignInApp) (w : World) :
  let w' := snd (sign_in self w) in
  dialogs w' = dialogs w /\ clock w' = clock w /\
  (ticks w <= ticks w' <= 4 + ticks w)%nat /\
  (status_label w' = status_label w \/
   In (status_label w')
      [("Please enter a Student ID", "red");
       ("Please enter a valid STUDENT ID", "red");
       ("Thank you. You have been successfully logged out.", "green");
       ("Thank you. You have been signed in.", "green")]).
Proof.
  py_unfold. unfold pd.read_csv.
  py_cases; repeat split; simpl; auto 10; lia.
Qed.

(** ** Members the handler cannot meet *)

Lemma rstrip_idempotent (s : string) : Text.rstrip (Text.rstrip s) = Text.rstrip s.
Proof.
  induction s as [|c r IH]; [reflexivity|]. simpl.
  destruct (Text.rstrip r) as [|c' r'] eqn:E.
  - destruct (Text.isspace c) eqn:Hc; simpl; [reflexivity|].
    rewrite Hc. reflexivity.
  - cbn [Text.rstrip]. cbn [Text.rstrip] in IH. rewrite IH. reflexivity.
Qed.

Lemma lstrip_idempotent (s : string) : Text.lstrip (Text.lstrip s) = Text.lstrip s.
Proof.
  induction s as [|c r IH]; [reflexivity|]. simpl.
  destruct (Text.isspace c) eqn:Hc; [exact IH|]. simpl. rewrite Hc. reflexivity.
Qed.

Lemma rstrip_tail (c : ascii) (r : string) :
  Text.rstrip (String c r) = String c r -> Text.rstrip r = r.
Proof.
  simpl. destruct (Text.rstrip r) as [|c' r'] eqn:E.
  - destruct (Text.isspace c); [discriminate|]. intros [= <-]. reflexivity.
  - intros [= <-]. reflexivity.
Qed.

Lemma rstrip_lstrip (s : string) :
  Text.rstrip s = s -> Text.rstrip (Text.lstrip s) = Text.lstrip s.
Proof.
  induction s as [|c r IH]; [reflexivity|]. intros H. cbn [Text.lstrip].
  destruct (Text.isspace c); [|exact H].
  apply IH, (rstrip_tail c r H).
Qed.

(** Trimming a trimmed text changes nothing. *)
Lemma strip_idempotent (s : string) : Text.strip (Text.strip s) = Text.strip s.
Proof.
  unfold Text.strip.
  rewrite (rstrip_lstrip (Text.rstrip s) (rstrip_idempotent s)).
  apply lstrip_idempotent.
Qed.

(** The handler looks up the trimmed text, and the roster keeps its texts
    untrimmed: a member that begins or ends with whitespace is never the
    text looked up, and a roster of such members only turns every submission
    down, with one of the two red messages and without a write. *)
Theorem padded_roster_admits_no_one (self : StudentSignInApp) :
  (forall m, m ∈ valid_users self -> Text.strip m <> m) ->
  forall w,
    (Text.strip (id_entry w) ∉ valid_users self) /\
    (sign_in self w = (Ok tt, turned_down "Please enter a Student ID" false w) \/
     sign_in self w
     = (Ok tt, turned_down "Please enter a valid STUDENT ID" true w)).
Proof.
  intros Hpad w.
  assert (Hn : Text.strip (id_entry w) ∉ valid_users self).
  { intros Hin. apply (Hpad _ Hin), strip_idempotent. }
  split; [exact Hn|].
  destruct (Text.blank (id_entry w)) eqn:Hb.
  - left. apply sign_in_blank, Hb.
  - right. apply sign_in_unknown; assumption.
Qed.

Lemma padded_roster_admits_no_one_witness :
  let app := {| directory := "daily_logs"; valid_users := {[" A12"]} |} in
  let w := type_text " A12" scenario_world in
  Text.strip (id_entry w) ∉ valid_users app.
Proof.
  intros app w.
  apply (padded_roster_admits_no_one app).
  intros m Hm. unfold app in Hm. cbn [valid_users] in Hm.
  apply elem_of_singleton in Hm. subst m. discriminate.
Defined.

(** ** Starting without a roster *)

Lemma load_missing_file (file_path : string) (w : World) :
  files w !! file_path = None ->
  load_valid_users_from_csv file_path w
  = (Ok ∅, shown (Plain (file_path ++ " file not found!")) w).
Proof.
  intros Hnone. py_unfold. unfold pd.read_csv. rewrite Hnone.
  destruct w; reflexivity.
Qed.

Lemma session_empty_roster (dir : string) (texts : list string) (w : World) :
  files (session {| directory := dir; valid_users := ∅ |} texts w) = files w.
Proof.
  unfold session. revert w.
  induction texts as [|text texts IH]; intros w; simpl; [reflexivity|].
  rewrite IH. unfold submit.
  apply (sign_in_empty_roster dir (type_text text w)).
Qed.

(** Start-up without the roster file: the application object is built with
    the directory daily_logs and the empty roster, the error was shown and
    no file was touched; no session run with this object then writes a file,
    whatever is typed. *)
Theorem init_without_roster (w : World) :
  files w !! "Robotics Club Member Roster CSV.csv" = None ->
  exists app w1,
    init w = (Ok app, w1) /\
    directory app = "daily_logs" /\ valid_users app = ∅ /\
    files w1 = files w /\
    In ("Error", Plain "Robotics Club Member Roster CSV.csv file not found!")
       (dialogs w1) /\
    forall texts w2, files (session app texts w2) = files w2.
Proof.
  intros Hnone.
  exists {| directory := "daily_logs"; valid_users := ∅ |},
         (shown (Plain "Robotics Club Member Roster CSV.csv file not found!") w).
  split; [|split; [reflexivity|split; [reflexivity|split; [reflexivity|split]]]].
  - unfold init, bind. rewrite (load_missing_file _ w Hnone). reflexivity.
  - simpl. apply in_or_app. right. left. reflexivity.
  - intros texts w2. apply session_empty_roster.
Qed.

Lemma init_without_roster_witness :
  exists app w1, init scenario_world = (Ok app, w1) /\ valid_users app = ∅.
Proof.
  destruct (init_without_roster scenario_world) as (app & w1 & H1 & _ & H2 & _).
  - reflexivity.
  - exists app, w1. split; assumption.
Defined.

(** ** Rosters with a surprise *)

Lemma mem_positions (key : string) (cols : list string) (i : nat) (js : list nat) :
  positions key cols = i :: js -> Text.mem key cols = true.
Proof.
  intros H. destruct (Text.mem key cols) eqn:E; [reflexivity|].
  apply (positions_from_nil 0) in E. unfold positions in H. congruence.
Qed.

(** The loader past the column test, whatever [df['Student ID']] is. *)
Lemma load_selection (file_path : string) (f : csv) (df : DataFrame)
    (sel : selection) (w : World) :
  files w !! file_path = Some f -> parse f = Ok df ->
  getitem {| columns := map Text.strip (columns df); rows := rows df |}
          "Student ID" = Ok sel ->
  load_valid_users_from_csv file_path w = (set_of_str sel, w).
Proof.
  intros Hf Hp Hsel.
  assert (Hm : Text.mem "Student ID" (map Text.strip (columns df)) = true).
  { unfold getitem in Hsel. cbn [columns] in Hsel.
    destruct (positions "Student ID" (map Text.strip (columns df)))
      as [|i js] eqn:E; [discriminate|].
    eapply mem_positions, E. }
  py_unfold. unfold pd.read_csv. rewrite Hf, Hp. cbn [columns].
  rewrite Hm. cbn [negb]. rewrite Hsel.
  destruct sel as [vs|d]; cbn [set_of_str];
    [destruct (mapM astype_str vs)|]; reflexivity.
Qed.

(** Two header names that both trim to "Student ID": [df['Student ID']] is
    then a DataFrame, whose iteration gives its labels, and the roster set
    is {"Student ID"}.  None of the identifiers of the file is a member; the
    text Student ID is. *)
Theorem load_valid_users_duplicate_column (file_path : string) (f : csv)
    (df : DataFrame) (i j : nat) (js : list nat) (w : World) :
  files w !! file_path = Some f -> parse f = Ok df ->
  positions "Student ID" (map Text.strip (columns df)) = i :: j :: js ->
  load_valid_users_from_csv file_path w = (Ok {["Student ID"]}, w).
Proof.
  intros Hf Hp Hpos.
  erewrite (load_selection file_path f df _ w Hf Hp).
  2:{ unfold getitem. cbn [columns]. rewrite Hpos. reflexivity. }
  f_equal. cbn [set_of_str columns]. f_equal. apply set_eq. intros x.
  rewrite elem_of_list_to_set, list_elem_of_In, in_map_iff, elem_of_singleton.
  split.
  - intros (k & <- & _). reflexivity.
  - intros ->. exists i. split; [reflexivity | left; reflexivity].
Qed.

Lemma load_valid_users_duplicate_column_witness :
  let f := {| header := ["Student ID"; " Student ID"];
              lines := [["A1"; "B2"]] |} in
  let w := set_files {["roster.csv" := f]} scenario_world in
  load_valid_users_from_csv "roster.csv" w = (Ok {["Student ID"]}, w).
Proof.
  intros f w.
  apply (load_valid_users_duplicate_column "roster.csv" f
           {| columns := ["Student ID"; " Student ID"];
              rows := [[VStr "A1"; VStr "B2"]] |} 0 1 []).
  - vm_compute. reflexivity.
  - vm_compute. reflexivity.
  - reflexivity.
Defined.


(** ** Reading back what was written *)

Lemma plain_not_na (s : string) : plain s = true -> is_na s = false.
Proof.
  unfold plain, classify. destruct (is_na s); [discriminate | reflexivity].
Qed.

Lemma infer_plain_column (cells : list string) :
  Forall (fun s => plain s = true) cells -> infer_dtype cells = Some object.
Proof.
  intros H. unfold infer_dtype. destruct H as [|s cells Hs _]; [reflexivity|].
  unfold plain in Hs. cbn [map forallb existsb].
  destruct (classify s); try discriminate. reflexivity.
Qed.

Lemma plain_cell_text (r : list value) (j : nat) :
  Forall (fun v => plain_value v = true) r -> (j < length r)%nat ->
  exists s, r !! j = Some (VStr s) /\ plain s = true /\
            nth j (map to_text r) "" = s.
Proof.
  intros Hr Hj. destruct (lookup_lt_is_Some_2 r j Hj) as [v Hv].
  pose proof (proj1 (Forall_lookup _ _) Hr j v Hv) as Hplain.
  destruct v as [z|s|]; try discriminate.
  exists s. split; [exact Hv|]. split; [exact Hplain|].
  apply nth_lookup_Some. rewrite list_lookup_fmap, Hv. reflexivity.
Qed.

Lemma read_plain_line (r : list value) :
  Forall (fun v => plain_value v = true) r ->
  read_line (replicate (length r) object) (map to_text r) = r.
Proof.
  intros Hr. unfold read_line. apply list_eq. intros j.
  rewrite list_lookup_imap.
  destruct (decide (j < length r)%nat) as [Hj|Hj].
  - rewrite lookup_replicate_2 by exact Hj. cbn [fmap option_fmap option_map].
    destruct (plain_cell_text r j Hr Hj) as (s & Hv & Hs & ->).
    rewrite Hv. cbn [convert]. rewrite (plain_not_na s Hs). reflexivity.
  - assert (replicate (length r) object !! j = None) as ->
      by (apply lookup_replicate_None; lia).
    symmetry. apply lookup_ge_None. lia.
Qed.

(** The shared form of the round trip below. *)
Lemma parse_plain_table (df : DataFrame) :
  well_formed df = true ->
  Forall (Forall (fun v => plain_value v = true)) (rows df) ->
  parse (pd.to_csv df) = Ok df.
Proof.
  destruct df as [cols rs]. unfold well_formed. cbn [columns rows].
  destruct cols as [|c cols'] eqn:Ecols; [discriminate|]. rewrite <- Ecols.
  intros [[Hd He]%andb_prop Hw]%andb_prop Hplain.
  rewrite forallb_forall in Hw.
  assert (Hlen : Forall (fun r => length r = length cols) rs).
  { apply Forall_forall. intros r Hr. apply Nat.eqb_eq, Hw.
    apply list_elem_of_In, Hr. }
  assert (Hn : (0 < length cols)%nat) by (rewrite Ecols; simpl; lia).
  unfold parse, pd.to_csv. cbn [header lines columns rows].
  assert (Hreg : regular {| header := cols; lines := map (map to_text) rs |} = true).
  { unfold regular. cbn [header lines]. rewrite Hd, He. cbn [andb].
    apply forallb_forall. intros l Hl. apply in_map_iff in Hl as (r & <- & Hr).
    rewrite length_map.
    rewrite (proj1 (Forall_forall _ _) Hlen r (proj2 (list_elem_of_In _ _) Hr)).
    apply andb_true_intro. split; [apply Nat.ltb_lt | apply Nat.leb_le]; lia. }
  rewrite Hreg. cbn [negb].
  assert (Hds : infer_dtypes (length cols) (map (map to_text) rs)
                = Some (replicate (length cols) object)).
  { unfold infer_dtypes. apply mapM_Some.
    apply Forall2_same_length_lookup_2.
    { rewrite length_seq, length_replicate. reflexivity. }
    intros j x d Hx Hd'. apply lookup_seq in Hx as [-> Hj]. cbn [Nat.add].
    apply lookup_replicate in Hd' as [-> _].
    apply infer_plain_column. unfold column_cells.
    rewrite Forall_map, Forall_map. apply Forall_forall. intros r Hr.
    pose proof (proj1 (Forall_forall _ _) Hlen r Hr) as Hlr.
    pose proof (proj1 (Forall_forall _ _) Hplain r Hr) as Hpr.
    destruct (plain_cell_text r j Hpr) as (s & _ & Hs & Hnth).
    { cbv beta in Hlr. lia. }
    cbn. rewrite Hnth. exact Hs. }
  rewrite Hds. rewrite Ecols at 1. f_equal. f_equal.
  rewrite map_map. rewrite <- (map_id rs) at 2.
  apply map_ext_in. intros r Hr. cbn.
  apply list_elem_of_In in Hr.
  rewrite <- (proj1 (Forall_forall _ _) Hlen r Hr).
  apply read_plain_line, (proj1 (Forall_forall _ _) Hplain r Hr).
Qed.

Lemma well_formed_schema (rs : list (list value)) :
  Forall (fun r => length r = 4%nat) rs ->
  well_formed {| columns := schema; rows := rs |} = true.
Proof.
  intros H. unfold well_formed. cbn [columns rows].
  change (distinct schema && negb (Text.mem "" schema)) with true.
  cbn [andb]. apply forallb_forall. intros r Hr.
  apply Nat.eqb_eq. exact (proj1 (Forall_forall _ _) H r (proj2 (list_elem_of_In _ _) Hr)).
Qed.

(** Round trip through the log file.  For a table with the four log columns
    whose cells, like the new identifier, status, date and time, are texts
    that none of the converters of [read_csv] accepts: what
    [log_student_sign_in] writes, [daily_log_generation] reads back on that
    day as the same rows followed by the new row, and writes nothing. *)
Theorem log_then_open_reads_back (self : StudentSignInApp) (df : DataFrame)
    (student_id status : string) (w : World) :
  let t := ticks w in
  let path := log_path self (clock w (S (S t))) in
  let w1 := snd (log_student_sign_in df path student_id status w) in
  columns df = schema ->
  Forall (fun r => length r = 4%nat) (rows df) ->
  Forall (Forall (fun v => plain_value v = true)) (rows df) ->
  plain student_id = true -> plain status = true ->
  plain (date (clock w (S t))) = true -> plain (time (clock w t)) = true ->
  daily_log_generation self w1
  = (Ok {| columns := schema;
           rows := (rows df ++ [[VStr student_id; VStr status;
                                 VStr (date (clock w (S t)));
                                 VStr (time (clock w t))]])%list |},
     later 1 w1).
Proof.
  intros t path w1 Hc Hw Hplain Hid Hst Hdate Htime.
  set (new := [VStr student_id; VStr status; VStr (date (clock w (S t)));
               VStr (time (clock w t))]).
  set (df' := {| columns := schema; rows := (rows df ++ [new])%list |}).
  assert (Hw1 : w1 = set_files (<[path := pd.to_csv df']> (files w)) (later 2 w)).
  { subst w1 df'. rewrite <- (concat_schema df new Hc Hw eq_refl).
    reflexivity. }
  assert (Hp : parse (pd.to_csv df') = Ok df').
  { apply parse_plain_table.
    - apply well_formed_schema. cbn [rows df']. apply Forall_app. split; [exact Hw|].
      repeat constructor.
    - cbn [rows df']. apply Forall_app. split; [exact Hplain|].
      constructor; [|constructor].
      repeat (constructor; [assumption|]). constructor. }
  rewrite (daily_log_generation_present self w1 (pd.to_csv df')).
  - rewrite Hp. reflexivity.
  - rewrite Hw1. apply lookup_insert_eq.
Qed.

Lemma log_then_open_reads_back_witness :
  let df := {| columns := schema;
               rows := [[VStr "A123"; VStr "Signed In"; VStr today; VStr "18:00:01"]] |} in
  let w1 := snd (log_student_sign_in df todays_log "B7" "Signed In" scenario_world) in
  fst (daily_log_generation scenario_app w1)
  = Ok {| columns := schema;
          rows := [[VStr "A123"; VStr "Signed In"; VStr today; VStr "18:00:01"];
                   [VStr "B7"; VStr "Signed In"; VStr today; VStr "18:00:01"]] |}.
Proof.
  intros df w1.
  pose proof (log_then_open_reads_back scenario_app df "B7" "Signed In"
                scenario_world) as H.
  cbv zeta in H. unfold w1.
  change (log_path scenario_app (clock scenario_world (S (S (ticks scenario_world)))))
    with todays_log in H.
  rewrite H.
  - reflexivity.
  - reflexivity.
  - repeat constructor.
  - repeat constructor.
  - vm_compute. reflexivity.
  - vm_compute. reflexivity.
  - vm_compute. reflexivity.
  - vm_compute. reflexivity.
Defined.

(** ** The toggle over a day *)

Lemma check_on_schema (df : DataFrame) (student_id : string) :
  columns df = schema ->
  student_already_signed_in df student_id
  = Ok (negb (empty {| columns := schema;
       rows := select (mask_and (map (eq_str student_id) (map (cell 0) (rows df)))
                         (map (eq_str "Signed In") (map (cell 1) (rows df))))
                      (rows df) |})).
Proof.
  destruct df as [cols rs]. cbn [columns rows]. intros ->. reflexivity.
Qed.

Lemma check_found (df : DataFrame) (student_id : string) (r : list value) :
  columns df = schema -> In r (rows df) ->
  cell 0 r = VStr student_id -> cell 1 r = VStr "Signed In" ->
  student_already_signed_in df student_id = Ok true.
Proof.
  intros Hc Hr H0 H1. rewrite (check_on_schema df _ Hc). f_equal.
  apply empty_select_false; [discriminate|].
  exists r. apply select_mask_and. auto.
Qed.

Lemma submit_new_log (self : StudentSignInApp) (text : string) (w : World)
    (D : string) :
  Text.strip text <> "" -> Text.strip text ∈ valid_users self ->
  (forall n, date (clock w n) = D) ->
  files w !! path_join (directory self) (D ++ ".csv") = None ->
  submit self text w
  = stamped (path_join (directory self) (D ++ ".csv"))
            {| columns := schema;
               rows := [[VStr (Text.strip text); VStr "Signed In"; VStr D;
                         VStr (time (clock w (S (S (ticks w)))))]] |}
            false w.
Proof.
  intros Hne Hin HD Hnone. unfold submit.
  rewrite (first_of_day_run self (type_text text w));
    cbn [type_text id_entry files clock ticks]; try assumption.
  - unfold log_path. rewrite !HD. reflexivity.
  - unfold log_path. rewrite HD. exact Hnone.
  - rewrite !HD. reflexivity.
Qed.

Lemma submit_old_log (self : StudentSignInApp) (text : string) (w : World)
    (D : string) (f : csv) (df : DataFrame) (b : bool) :
  Text.strip text <> "" -> Text.strip text ∈ valid_users self ->
  (forall n, date (clock w n) = D) ->
  files w !! path_join (directory self) (D ++ ".csv") = Some f ->
  parse f = Ok df -> columns df = schema ->
  student_already_signed_in df (Text.strip text) = Ok b ->
  submit self text w
  = stamped (path_join (directory self) (D ++ ".csv"))
            {| columns := schema;
               rows := (rows df
                        ++ [[VStr (Text.strip text); VStr (toggled b); VStr D;
                             VStr (time (clock w (S (S (ticks w)))))]])%list |}
            b w.
Proof.
  intros Hne Hin HD Hf Hp Hc Hb. unfold submit.
  destruct (existing_log_run self (type_text text w) f df)
    as (b' & Hb' & Hrun & _);
    cbn [type_text id_entry files clock ticks]; try assumption.
  - unfold log_path. rewrite HD. exact Hf.
  - cbn [type_text id_entry] in Hb'. rewrite Hb in Hb'. injection Hb' as <-.
    rewrite Hrun. cbn [snd type_text id_entry files clock ticks dialogs].
    unfold stamped, log_path, pd.to_csv. cbn [columns rows].
    rewrite !HD, map_app. reflexivity.
Qed.

Lemma plain_signed_in : plain "Signed In" = true.
Proof. vm_compute. reflexivity. Qed.

Lemma plain_signed_out : plain "Signed Out" = true.
Proof. vm_compute. reflexivity. Qed.

(** A member whose identifier, the date and the times are texts that
    [read_csv] keeps (none is a number or an NA marker), submitting three
    times on a day without a log: the log holds Signed In, then Signed Out,
    then Signed Out again, since the first line keeps answering the check;
    the second submission announces the log-out. *)
Theorem text_member_is_signed_out (self : StudentSignInApp) (text : string)
    (w : World) (D : string) :
  let login := Text.strip text in
  let path := path_join (directory self) (D ++ ".csv") in
  let T k := time (clock w (k + ticks w)) in
  login <> "" -> login ∈ valid_users self ->
  plain login = true -> plain D = true ->
  (forall n, date (clock w n) = D) ->
  (forall n, plain (time (clock w n)) = true) ->
  files w !! path = None ->
  files (session self [text; text] w) !! path
  = Some {| header := schema;
            lines := [[login; "Signed In"; D; T 2%nat];
                      [login; "Signed Out"; D; T 6%nat]] |} /\
  status_label (session self [text; text] w)
  = ("Thank you. You have been successfully logged out.", "green") /\
  files (session self [text; text; text] w) !! path
  = Some {| header := schema;
            lines := [[login; "Signed In"; D; T 2%nat];
                      [login; "Signed Out"; D; T 6%nat];
                      [login; "Signed Out"; D; T 10%nat]] |}.
Proof.
  intros login path T Hne Hin Hlogin HD Hdate Htime Hnone.
  set (r1 := [VStr login; VStr "Signed In"; VStr D; VStr (T 2%nat)]).
  set (r2 := [VStr login; VStr "Signed Out"; VStr D; VStr (T 6%nat)]).
  set (r3 := [VStr login; VStr "Signed Out"; VStr D; VStr (T 10%nat)]).
  set (df1 := {| columns := schema; rows := [r1] |}).
  set (df2 := {| columns := schema; rows := [r1; r2] |}).
  set (df3 := {| columns := schema; rows := [r1; r2; r3] |}).
  set (w1 := stamped path df1 false w).
  set (w2 := stamped path df2 true w1).
  assert (Hplain : forall k, plain_value (VStr (T k)) = true)
    by (intros k; apply Htime).
  assert (Hp1 : parse (pd.to_csv df1) = Ok df1).
  { apply parse_plain_table; [apply well_formed_schema|];
      repeat constructor; auto using plain_signed_in. }
  assert (Hp2 : parse (pd.to_csv df2) = Ok df2).
  { apply parse_plain_table; [apply well_formed_schema|];
      repeat constructor; auto using plain_signed_in, plain_signed_out. }
  assert (H1 : submit self text w = w1).
  { apply (submit_new_log self text w D); assumption. }
  assert (H2 : submit self text w1 = w2).
  { apply (submit_old_log self text w1 D (pd.to_csv df1) df1 true);
      try assumption.
    - apply lookup_insert_eq.
    - reflexivity.
    - apply (check_found df1 login r1); [reflexivity | left | |]; reflexivity. }
  assert (H3 : submit self text w2 = stamped path df3 true w2).
  { apply (submit_old_log self text w2 D (pd.to_csv df2) df2 true);
      try assumption.
    - apply lookup_insert_eq.
    - reflexivity.
    - apply (check_found df2 login r1); [reflexivity | left | |]; reflexivity. }
  unfold session. cbn [fold_left]. rewrite H1, H2, H3.
  split; [apply lookup_insert_eq|]. split; [reflexivity|].
  apply lookup_insert_eq.
Qed.

Lemma text_member_is_signed_out_witness :
  let app := {| directory := "daily_logs"; valid_users := {["A123"]} |} in
  status_label (session app [" A123"; " A123"] scenario_world)
  = ("Thank you. You have been successfully logged out.", "green").
Proof.
  intros app.
  refine (proj1 (proj2 (text_member_is_signed_out app " A123" scenario_world
                          today _ _ _ _ _ _ _))).
  - discriminate.
  - vm_compute. reflexivity.
  - vm_compute. reflexivity.
  - vm_compute. reflexivity.
  - intros n. reflexivity.
  - intros n. cbn [clock scenario_world]. unfold scenario_clock. cbn [time].
    destruct (n <? 4)%nat; [|destruct (n <? 8)%nat]; vm_compute; reflexivity.
  - reflexivity.
Defined.

Lemma infer_int_cell (s : string) (z : Z) :
  classify s = CellInt z -> infer_dtype [s] = Some int64.
Proof.
  intros H. unfold infer_dtype. cbn [map forallb]. rewrite H. reflexivity.
Qed.

Lemma infer_plain_cell (s : string) : plain s = true -> infer_dtype [s] = Some object.
Proof. intros H. apply infer_plain_column. constructor; [exact H | constructor]. Qed.

(** A log of one line whose identifier is a number. *)
Lemma parse_numeric_line (a b c d : string) (z : Z) :
  classify a = CellInt z -> plain b = true -> plain c = true -> plain d = true ->
  parse {| header := schema; lines := [[a; b; c; d]] |}
  = Ok {| columns := schema; rows := [[VInt z; VStr b; VStr c; VStr d]] |}.
Proof.
  intros Ha Hb Hc Hd.
  assert (Hds : infer_dtypes 4 [[a; b; c; d]]
                = Some [int64; object; object; object]).
  { unfold infer_dtypes. apply mapM_Some.
    change (seq 0 4) with [0; 1; 2; 3]%nat.
    constructor; [exact (infer_int_cell a z Ha)|].
    constructor; [exact (infer_plain_cell b Hb)|].
    constructor; [exact (infer_plain_cell c Hc)|].
    constructor; [exact (infer_plain_cell d Hd)|].
    constructor. }
  change (parse {| header := schema; lines := [[a; b; c; d]] |})
    with (match infer_dtypes 4 [[a; b; c; d]] with
          | Some ds => Ok {| columns := schema;
                             rows := map (read_line ds) [[a; b; c; d]] |}
          | None => Raise Unmodelled
          end).
  rewrite Hds.
  change (map (read_line [int64; object; object; object]) [[a; b; c; d]])
    with [[convert int64 a; convert object b; convert object c;
           convert object d]].
  unfold convert.
  rewrite (classify_int a z Ha), (plain_not_na b Hb), (plain_not_na c Hc),
    (plain_not_na d Hd).
  reflexivity.
Qed.

(** A member whose identifier reads as an integer (digits, with or without
    blanks, a sign or leading zeros), submitting twice on a day without a
    log: the second submission finds the identifier read back as a number,
    signs the member in again and announces a sign-in; the file it writes
    holds the first identifier as the printed number. *)
Theorem numeric_member_is_signed_in_again (self : StudentSignInApp)
    (text : string) (w : World) (D : string) (z : Z) :
  let login := Text.strip text in
  let path := path_join (directory self) (D ++ ".csv") in
  let T k := time (clock w (k + ticks w)) in
  login <> "" -> login ∈ valid_users self ->
  classify login = CellInt z -> plain D = true ->
  (forall n, date (clock w n) = D) ->
  (forall n, plain (time (clock w n)) = true) ->
  files w !! path = None ->
  files (session self [text; text] w) !! path
  = Some {| header := schema;
            lines := [[Text.of_int z; "Signed In"; D; T 2%nat];
                      [login; "Signed In"; D; T 6%nat]] |} /\
  status_label (session self [text; text] w)
  = ("Thank you. You have been signed in.", "green").
Proof.
  intros login path T Hne Hin Hlogin HD Hdate Htime Hnone.
  set (df1 := {| columns := schema;
                 rows := [[VStr login; VStr "Signed In"; VStr D; VStr (T 2%nat)]] |}).
  set (dfn := {| columns := schema;
                 rows := [[VInt z; VStr "Signed In"; VStr D; VStr (T 2%nat)]] |}).
  set (w1 := stamped path df1 false w).
  assert (Hp : parse (pd.to_csv df1) = Ok dfn).
  { apply (parse_numeric_line login "Signed In" D (T 2%nat) z);
      auto using plain_signed_in. apply Htime. }
  assert (H1 : submit self text w = w1).
  { apply (submit_new_log self text w D); assumption. }
  assert (H2 : submit self text w1
               = stamped path
                   {| columns := schema;
                      rows := [[VInt z; VStr "Signed In"; VStr D; VStr (T 2%nat)];
                               [VStr login; VStr "Signed In"; VStr D;
                                VStr (T 6%nat)]] |} false w1).
  { apply (submit_old_log self text w1 D (pd.to_csv df1) dfn false);
      try assumption.
    - apply lookup_insert_eq.
    - reflexivity.
    - reflexivity. }
  unfold session. cbn [fold_left]. rewrite H1, H2.
  split; [apply lookup_insert_eq | reflexivity].
Qed.

Lemma numeric_member_is_signed_in_again_witness :
  let app := {| directory := "daily_logs"; valid_users := {["007"]} |} in
  files (session app ["007"; "007"] scenario_world) !! todays_log
  = Some {| header := schema;
            lines := [["7"; "Signed In"; today; "18:00:01"];
                      ["007"; "Signed In"; today; "18:07:30"]] |}.
Proof.
  intros app.
  refine (proj1 (numeric_member_is_signed_in_again app "007" scenario_world
                   today 7 _ _ _ _ _ _ _)).
  - discriminate.
  - vm_compute. reflexivity.
  - vm_compute. reflexivity.
  - vm_compute. reflexivity.
  - intros n. reflexivity.
  - intros n. cbn [clock scenario_world]. unfold scenario_clock. cbn [time].
    destruct (n <? 4)%nat; [|destruct (n <? 8)%nat]; vm_compute; reflexivity.
  - reflexivity.
Defined.

(** ** The log over a session *)

Lemma sign_in_log_grows (self : StudentSignInApp) (w : World) (D : string)
    (f : csv) :
  (forall n, date (clock w n) = D) ->
  files w !! path_join (directory self) (D ++ ".csv") = Some f ->
  exists g,
    files (snd (sign_in self w)) !! path_join (directory self) (D ++ ".csv")
    = Some g /\
    (length (lines f) <= length (lines g) <= S (length (lines f)))%nat.
Proof.
  intros HD Hf.
  assert (Hsame : forall w', files w' = files w ->
            exists g, files w' !! path_join (directory self) (D ++ ".csv")
                      = Some g /\
              (length (lines f) <= length (lines g) <= S (length (lines f)))%nat).
  { intros w' ->. exists f. split; [exact Hf | lia]. }
  destruct (Text.blank (id_entry w)) eqn:Hb.
  { rewrite (sign_in_blank self w Hb). apply Hsame. reflexivity. }
  destruct (decide (Text.strip (id_entry w) ∈ valid_users self)) as [Hin|Hn].
  2:{ rewrite (sign_in_unknown self w Hb Hn). apply Hsame. reflexivity. }
  assert (Hne : Text.strip (id_entry w) <> "").
  { intros E%strip_empty_iff. congruence. }
  rewrite (sign_in_accepted self w Hne Hin).
  rewrite (daily_log_generation_present self w f).
  2:{ unfold log_path. rewrite HD. exact Hf. }
  destruct (parse f) as [df|e] eqn:Hp; [|apply Hsame; reflexivity].
  destruct (student_already_signed_in df (Text.strip (id_entry w))) as [b|e];
    [|apply Hsame; reflexivity].
  cbn [snd]. unfold logged, later, log_path. cbn [files clock ticks].
  rewrite HD. eexists. split; [apply lookup_insert_eq|].
  destruct (parse_rows f df Hp) as (_ & Hlen & _).
  unfold pd.to_csv, concat. cbn [lines rows].
  rewrite length_map, length_app, !length_map, Hlen. simpl. lia.
Qed.

(** While the clock shows the date [D], a session never removes the log of
    [D] and never makes it shorter: after any submissions, accepted, turned
    down or ended by an exception, the file is there with at least the
    lines it had, and at most one more per submission. *)
Theorem session_log_never_shrinks (self : StudentSignInApp)
    (texts : list string) (w : World) (D : string) (f : csv) :
  (forall n, date (clock w n) = D) ->
  files w !! path_join (directory self) (D ++ ".csv") = Some f ->
  exists g,
    files (session self texts w) !! path_join (directory self) (D ++ ".csv")
    = Some g /\
    (length (lines f) <= length (lines g)
     <= length texts + length (lines f))%nat.
Proof.
  unfold session. revert w f.
  induction texts as [|text texts IH]; intros w f HD Hf; cbn [fold_left].
  - exists f. split; [exact Hf | simpl; lia].
  - destruct (sign_in_log_grows self (type_text text w) D f HD Hf)
      as (g & Hg & Hlen).
    destruct (sign_in_frame self (type_text text w) D HD) as [Hclock _].
    destruct (IH (submit self text w) g) as (h & Hh & Hlen').
    + intros n. unfold submit. rewrite Hclock. apply HD.
    + exact Hg.
    + exists h. split; [exact Hh | simpl; lia].
Qed.

Lemma session_log_never_shrinks_witness :
  let f := {| header := schema;
              lines := [["A7"; "Signed In"; today; "17:55:10"]] |} in
  let w := set_files {[todays_log := f]} scenario_world in
  exists g,
    files (session scenario_app ["123"; " "; "999"] w) !! todays_log = Some g /\
    (1 <= length (lines g))%nat.
Proof.
  intros f w.
  destruct (session_log_never_shrinks scenario_app ["123"; " "; "999"] w today f)
    as (g & Hg & Hlen & _).
  - intros n. reflexivity.
  - vm_compute. reflexivity.
  - exists g. split; [exact Hg | exact Hlen].
Defined.
